(** * LapTimer-ATmega128: a shallow embedding of [LapTimer.c]

    The race-timing controller keeps a clock that a timer interrupt advances
    once a second, a linked list of runners on the heap, and a handful of
    functions over that list (average lap time, ranking, best runner).

    Conventions of the embedding:
    - a [uint8_t] is a [Z]; every store into one is written [u8 _], the
      reduction modulo 256 that the C conversion performs;
    - a pointer is an [option loc], [None] being [NULL]; the heap is a finite
      map from locations to list nodes;
    - a function of the program returns an [outcome]: a value, undefined
      behaviour (an invalid dereference, an index outside an array), or the
      exhaustion of the loop budget [fuel] that bounds every [while]/[for];
    - memory the program reads before writing it (a node fresh from [malloc],
      an automatic variable without initialiser) holds an arbitrary value,
      taken as a variable of the section the functions live in;
    - the values of the input ports and of the timer's counter register are
      arguments of the functions that read them. *)

From Stdlib Require Import ZArith Lia.
From stdpp Require Import base option list gmap.

Local Open Scope Z_scope.

(** ** Machine integers *)

(** Conversion to [uint8_t]. *)
Definition u8 (z : Z) : Z := z mod 256.

(** The values a [uint8_t] object can hold. *)
Definition is_u8 (z : Z) : Prop := 0 <= z < 256.

(** ** Data model (lines 10-32) *)

Record time_type : Type := mk_time {
  min : Z;
  sec : Z;
  hSec : Z
}.

Record runner_type : Type := mk_runner {
  id : Z;
  running : Z;
  time : time_type
}.

Definition loc : Type := positive.

(** A [runner_node*]; [None] is [NULL]. *)
Definition ptr : Type := option loc.

Record runner_node : Type := mk_node {
  runner : runner_type;
  prev : ptr;
  next : ptr
}.

Definition wf_time (t : time_type) : Prop :=
  is_u8 (min t) /\ is_u8 (sec t) /\ is_u8 (hSec t).

Definition wf_runner (r : runner_type) : Prop :=
  is_u8 (id r) /\ is_u8 (running r) /\ wf_time (time r).

(** The globals of the program, the [static] locals of [addRunner] and
    [inputController], and the two device registers the program writes. *)
Record state : Type := mk_state {
  clock : time_type;
  runnerListHead : ptr;
  heap : gmap loc runner_node;
  addRunner_prev : ptr;
  clockRunning : Z;
  currentRunner : runner_type;
  TCCR1B : Z;
  PORTA : Z
}.

Definition set_clock (v : time_type) (s : state) : state :=
  mk_state v (runnerListHead s) (heap s) (addRunner_prev s) (clockRunning s)
           (currentRunner s) (TCCR1B s) (PORTA s).

Definition set_heap (v : gmap loc runner_node) (s : state) : state :=
  mk_state (clock s) (runnerListHead s) v (addRunner_prev s) (clockRunning s)
           (currentRunner s) (TCCR1B s) (PORTA s).

Definition set_addRunner_prev (v : ptr) (s : state) : state :=
  mk_state (clock s) (runnerListHead s) (heap s) v (clockRunning s)
           (currentRunner s) (TCCR1B s) (PORTA s).

Definition set_clockRunning (v : Z) (s : state) : state :=
  mk_state (clock s) (runnerListHead s) (heap s) (addRunner_prev s) v
           (currentRunner s) (TCCR1B s) (PORTA s).

Definition set_currentRunner (v : runner_type) (s : state) : state :=
  mk_state (clock s) (runnerListHead s) (heap s) (addRunner_prev s)
           (clockRunning s) v (TCCR1B s) (PORTA s).

Definition set_TCCR1B (v : Z) (s : state) : state :=
  mk_state (clock s) (runnerListHead s) (heap s) (addRunner_prev s)
           (clockRunning s) (currentRunner s) v (PORTA s).

Definition set_PORTA (v : Z) (s : state) : state :=
  mk_state (clock s) (runnerListHead s) (heap s) (addRunner_prev s)
           (clockRunning s) (currentRunner s) (TCCR1B s) v.

(** ** Outcomes *)

Inductive outcome (A : Type) : Type :=
| Ret (a : A)
| Undefined
| OutOfFuel.

Arguments Ret {A} a.
Arguments Undefined {A}.
Arguments OutOfFuel {A}.

#[global] Instance outcome_ret : MRet outcome := fun A a => Ret a.

#[global] Instance outcome_bind : MBind outcome := fun A B k m =>
  match m with
  | Ret a => k a
  | Undefined => Undefined
  | OutOfFuel => OutOfFuel
  end.

Definition returns {A : Type} (m : outcome A) : Prop := exists a, m = Ret a.

(** ** The clock (lines 54-57 and 114-125) *)

(** [incClock(&clock)]; [TCNT1] is the value the 16-bit counter register
    holds when line 124 reads it. *)
Definition incClock (time_p : time_type) (TCNT1 : Z) : time_type :=
  let t :=
    if sec time_p <? 59
    then mk_time (min time_p) (u8 (sec time_p + 1)) (hSec time_p)
    else mk_time (u8 (min time_p + 1)) 0 (hSec time_p) in
  mk_time (min t) (sec t) (u8 TCNT1).

(** [ISR(TIMER1_COMPA_vect)]. *)
Definition ISR_TIMER1_COMPA (s : state) (TCNT1 : Z) : state :=
  set_clock (incClock (clock s) TCNT1) s.

(** The clock after one interrupt per element of [samples], the counter
    values read by the successive calls. *)
Definition ticks (t : time_type) (samples : list Z) : time_type :=
  foldl incClock t samples.

(** ** Lap time in seconds (lines 381-384) *)

(** The operands are promoted to [int], where [255 * 60 + 255] fits; the
    [return] converts the sum to [uint8_t]. *)
Definition getTimeInSec (runner : runner_type) : Z :=
  u8 (min (time runner) * 60 + sec (time runner)).

(** The lap time in whole seconds, as an unbounded integer. *)
Definition whole_seconds (r : runner_type) : Z :=
  min (time r) * 60 + sec (time r).

(** ** The heap *)

(** Reading through a pointer: [NULL] and pointers to storage that is not
    allocated have no value to give. *)
Definition load (h : gmap loc runner_node) (p : ptr) : outcome (loc * runner_node) :=
  match p with
  | None => Undefined
  | Some a =>
      match h !! a with
      | Some nd => Ret (a, nd)
      | None => Undefined
      end
  end.

(** Writing a field of the node at [a]. *)
Definition store (h : gmap loc runner_node) (a : loc)
    (f : runner_node -> runner_node) : outcome (gmap loc runner_node) :=
  match h !! a with
  | Some nd => Ret (<[a := f nd]> h)
  | None => Undefined
  end.

(** [free(p)] for a pointer into the heap. *)
Definition free (h : gmap loc runner_node) (a : loc) : outcome (gmap loc runner_node) :=
  match h !! a with
  | Some _ => Ret (delete a h)
  | None => Undefined
  end.

(** The list of runners met by the traversal
    [while (current != NULL) { ...; current = current->next; }]
    that [averageLapTime], [sortedByTime] and [outputBest] share. *)
Fixpoint snapshot (fuel : nat) (h : gmap loc runner_node) (current : ptr)
    : outcome (list runner_type) :=
  match fuel with
  | O => OutOfFuel
  | S fuel' =>
      match current with
      | None => Ret []
      | Some _ =>
          '(_, nd) ← load h current;
          l ← snapshot fuel' h (next nd);
          mret (runner nd :: l)
      end
  end.

(** [is_list h p l]: from [p] the [next] chain of [h] runs through nodes
    holding the runners [l], in this order, and ends in [NULL]. *)
Fixpoint is_list (h : gmap loc runner_node) (p : ptr) (l : list runner_type) : Prop :=
  match l with
  | [] => p = None
  | r :: l' =>
      exists a nd, p = Some a /\ h !! a = Some nd /\ runner nd = r /\ is_list h (next nd) l'
  end.

Section Program.

(** What a node returned by [malloc] holds before the program writes it. *)
Variable uninit_node : loc -> runner_node.

(** What the elements of the variable-length array [sortingArray] of
    [sortedByTime] hold before the copy loop writes them. *)
Variable uninit_runner : runner_type.

(** What the automatic variable [averageTime] of [averageLapTime], declared
    without initialiser on line 232, holds. *)
Variable uninit_time : time_type.

(** What [free(sortingArray)] on line 315 does. The array is an automatic
    object and not storage obtained from [malloc], so the C standard leaves
    the call undefined; the outcome is left open here. *)
Variable free_sortingArray : outcome unit.

(** [malloc(sizeof(runner_node))]: a location that is not allocated becomes
    allocated. Exhaustion of the heap is not modelled. *)
Definition malloc (h : gmap loc runner_node) : loc * gmap loc runner_node :=
  let a := fresh (dom h) in (a, <[a := uninit_node a]> h).

(** ** The registry (lines 136-153) *)

(** The loop of lines 141-143: from [head] to the node whose [next] is
    [NULL]. *)
Fixpoint addRunner_last (fuel : nat) (h : gmap loc runner_node) (current : ptr)
    : outcome loc :=
  match fuel with
  | O => OutOfFuel
  | S fuel' =>
      '(a, nd) ← load h current;
      match next nd with
      | None => mret a
      | Some _ => addRunner_last fuel' h (next nd)
      end
  end.

(** [addRunner(head, r)]. Lines 145-148 are four stores through [current],
    the node the loop stopped at; line 150 updates the [static] variable
    [prev]. The result is [current]. *)
Definition addRunner (fuel : nat) (s : state) (head : ptr) (r : runner_type)
    : outcome (ptr * state) :=
  current ← addRunner_last fuel (heap s) head;
  let '(fresh_node, h) := malloc (heap s) in
  h ← store h current (fun nd => mk_node (runner nd) (prev nd) (Some fresh_node));
  h ← store h current (fun nd => mk_node r (prev nd) (next nd));
  h ← store h current (fun nd => mk_node (runner nd) (addRunner_prev s) (next nd));
  h ← store h current (fun nd => mk_node (runner nd) (prev nd) None);
  mret (Some current, set_addRunner_prev (Some current) (set_heap h s)).

(** ** Average lap time (lines 228-259) *)

(** The loop of lines 235-247, on the locals [runners] and [total]. *)
Fixpoint averageLapTime_loop (fuel : nat) (h : gmap loc runner_node) (current : ptr)
    (runners : Z) (total : time_type) : outcome (Z * time_type) :=
  match fuel with
  | O => OutOfFuel
  | S fuel' =>
      match current with
      | None => mret (runners, total)
      | Some _ =>
          '(_, nd) ← load h current;
          if running (runner nd) =? 0
          then averageLapTime_loop fuel' h (next nd) (u8 (runners + 1))
                 (mk_time (u8 (min total + min (time (runner nd))))
                          (u8 (sec total + sec (time (runner nd))))
                          (u8 (hSec total + hSec (time (runner nd)))))
          else averageLapTime_loop fuel' h (next nd) runners total
      end
  end.

Definition averageLapTime (fuel : nat) (s : state) : outcome time_type :=
  '(runners, total) ←
    averageLapTime_loop fuel (heap s) (runnerListHead s) 0 (mk_time 0 0 0);
  if runners >? 1
  then
    let tempSec := u8 (min total * 60 + sec total) in
    let averSec := u8 (tempSec `quot` runners) in
    mret (mk_time (u8 (averSec `quot` 60))
                  (u8 (averSec `rem` 60))
                  (u8 (hSec total `quot` runners)))
  else mret uninit_time.

(** ** Ranking (lines 269-336) *)

(** Indexing of [sortingArray]: an index outside the array is undefined. *)
Definition array_get (arr : list runner_type) (i : Z) : outcome runner_type :=
  if 0 <=? i
  then match arr !! Z.to_nat i with
       | Some r => Ret r
       | None => Undefined
       end
  else Undefined.

(** Assignment to [sortingArray[i]], under the same bounds. *)
Definition array_set (arr : list runner_type) (i : Z) (r : runner_type)
    : outcome (list runner_type) :=
  _ ← array_get arr i;
  mret (<[Z.to_nat i := r]> arr).

(** The loop of lines 274-278. *)
Fixpoint sortedByTime_count (fuel : nat) (h : gmap loc runner_node) (current : ptr)
    (listSize : Z) : outcome Z :=
  match fuel with
  | O => OutOfFuel
  | S fuel' =>
      match current with
      | None => mret listSize
      | Some _ =>
          '(_, nd) ← load h current;
          sortedByTime_count fuel' h (next nd) (u8 (listSize + 1))
      end
  end.

(** The loop of lines 283-287. *)
Fixpoint sortedByTime_copy (fuel : nat) (h : gmap loc runner_node)
    (sortingArray : list runner_type) (tempNode : ptr) (i listSize : Z)
    : outcome (list runner_type) :=
  match fuel with
  | O => OutOfFuel
  | S fuel' =>
      if i <? listSize
      then
        '(_, nd) ← load h tempNode;
        sortingArray ← array_set sortingArray i (runner nd);
        sortedByTime_copy fuel' h sortingArray (next nd) (u8 (i + 1)) listSize
      else mret sortingArray
  end.

(** [freeRunnerList(head)], lines 326-336. *)
Fixpoint freeRunnerList (fuel : nat) (h : gmap loc runner_node) (current : ptr)
    : outcome (gmap loc runner_node) :=
  match fuel with
  | O => OutOfFuel
  | S fuel' =>
      match current with
      | None => mret h
      | Some _ =>
          '(previous, nd) ← load h current;
          h ← free h previous;
          freeRunnerList fuel' h (next nd)
      end
  end.

(** The inner loop of lines 293-304, [j] and [i] being [uint8_t]. *)
Fixpoint sortedByTime_inner (fuel : nat) (sortingArray : list runner_type) (i j : Z)
    : outcome (list runner_type) :=
  match fuel with
  | O => OutOfFuel
  | S fuel' =>
      if j <=? i
      then
        r1 ← array_get sortingArray j;
        r2 ← array_get sortingArray (j - 1);
        let time1 := getTimeInSec r1 in
        let time2 := getTimeInSec r2 in
        sortingArray ←
          (if time2 >? time1
           then
             temp ← array_get sortingArray (j - 1);
             rj ← array_get sortingArray j;
             sortingArray ← array_set sortingArray (j - 1) rj;
             array_set sortingArray j temp
           else mret sortingArray);
        sortedByTime_inner fuel' sortingArray i (u8 (j + 1))
      else mret sortingArray
  end.

(** The outer loop of lines 291-305. Its test is [i >= 0] on a [uint8_t]
    and its step [i--] on the same. *)
Fixpoint sortedByTime_outer (fuel : nat) (sortingArray : list runner_type) (i : Z)
    : outcome (list runner_type) :=
  match fuel with
  | O => OutOfFuel
  | S fuel' =>
      if i >=? 0
      then
        sortingArray ← sortedByTime_inner fuel' sortingArray i 1;
        sortedByTime_outer fuel' sortingArray (u8 (i - 1))
      else mret sortingArray
  end.

(** The loop of lines 309-313. *)
Fixpoint sortedByTime_build (fuel : nat) (s : state) (sortedHead : ptr)
    (sortingArray : list runner_type) (i listSize : Z) : outcome state :=
  match fuel with
  | O => OutOfFuel
  | S fuel' =>
      if i <? listSize
      then
        r ← array_get sortingArray i;
        '(_, s) ← addRunner fuel' s sortedHead r;
        sortedByTime_build fuel' s sortedHead sortingArray (u8 (i + 1)) listSize
      else mret s
  end.

(** [sortedByTime(head)]. *)
Definition sortedByTime (fuel : nat) (s : state) (head : ptr) : outcome (ptr * state) :=
  listSize ← sortedByTime_count fuel (heap s) head 0;
  let sortingArray := replicate (Z.to_nat listSize) uninit_runner in
  sortingArray ← sortedByTime_copy fuel (heap s) sortingArray head 0 listSize;
  h ← freeRunnerList fuel (heap s) head;
  let s := set_heap h s in
  sortingArray ← sortedByTime_outer fuel sortingArray (u8 (listSize - 1));
  let '(sortedHead, h) := malloc (heap s) in
  let s := set_heap h s in
  s ← sortedByTime_build fuel s (Some sortedHead) sortingArray 0 listSize;
  _ ← free_sortingArray;
  mret (Some sortedHead, s).

(** ** Best runner (lines 343-371) *)

(** The loop of lines 353-367, on the locals [bestTimeID] and
    [bestTimeSec]. *)
Fixpoint outputBest_loop (fuel : nat) (h : gmap loc runner_node) (current : ptr)
    (bestTimeID bestTimeSec : Z) : outcome (Z * Z) :=
  match fuel with
  | O => OutOfFuel
  | S fuel' =>
      match current with
      | None => mret (bestTimeID, bestTimeSec)
      | Some _ =>
          '(_, nd) ← load h current;
          if running (runner nd) =? 0
          then
            let timeInSec := getTimeInSec (runner nd) in
            if bestTimeSec >? timeInSec
            then outputBest_loop fuel' h (next nd) (id (runner nd)) timeInSec
            else outputBest_loop fuel' h (next nd) bestTimeID bestTimeSec
          else mret (bestTimeID, bestTimeSec)
      end
  end.

Definition outputBest (fuel : nat) (s : state) : outcome state :=
  match runnerListHead s with
  | None => mret s
  | Some _ =>
      '(_, nd) ← load (heap s) (runnerListHead s);
      let bestTimeID := id (runner nd) in
      let bestTimeSec := getTimeInSec (runner nd) in
      '(bestTimeID, _) ←
        outputBest_loop fuel (heap s) (runnerListHead s) bestTimeID bestTimeSec;
      mret (set_PORTA bestTimeID s)
  end.

(** ** The controller (lines 91-104 and 160-219) *)

(** Bit numbers of the clock-select bits of [TCCR1B], from the device header
    of the ATmega128. *)
Definition CS10 : Z := 0.
Definition CS11 : Z := 1.

Definition stopTimer (s : state) : state :=
  set_TCCR1B
    (u8 (Z.land (TCCR1B s) (Z.lnot (Z.lor (Z.shiftl 1 CS10) (Z.shiftl 1 CS11))))) s.

Definition startTimer (s : state) : state :=
  set_TCCR1B
    (u8 (Z.lor (TCCR1B s) (Z.lor (Z.shiftl 1 CS10) (Z.shiftl 1 CS11)))) s.

(** Lines 188-218: the runner start/finish signal. [PIND], [PINE] and
    [TCNT1] are the values the input ports and the counter register hold
    during this call. *)
Definition inputController_runner (fuel : nat) (s : state) (PIND PINE TCNT1 : Z)
    : outcome state :=
  if negb (Z.land PIND (Z.shiftl 1 4) =? 0) && negb (clockRunning s =? 0)
  then
    if negb (running (currentRunner s) =? 0)
    then
      let lapTime :=
        mk_time (u8 (min (clock s) - min (time (currentRunner s))))
                (u8 (sec (clock s) - sec (time (currentRunner s))))
                (u8 (TCNT1 - hSec (time (currentRunner s)))) in
      let s := set_currentRunner
                 (mk_runner (id (currentRunner s)) (running (currentRunner s)) lapTime) s in
      let s := set_currentRunner
                 (mk_runner (id (currentRunner s)) 0 (time (currentRunner s))) s in
      mret s
    else
      let s := set_currentRunner
                 (mk_runner (id (currentRunner s)) 1 (time (currentRunner s))) s in
      let s := set_currentRunner
                 (mk_runner (u8 PINE) (running (currentRunner s)) (time (currentRunner s))) s in
      let s := set_currentRunner
                 (mk_runner (id (currentRunner s)) (running (currentRunner s)) (clock s)) s in
      let s := set_currentRunner
                 (mk_runner (id (currentRunner s)) (running (currentRunner s))
                    (mk_time (min (time (currentRunner s))) (sec (time (currentRunner s)))
                             (u8 TCNT1))) s in
      '(_, s) ← addRunner fuel s (runnerListHead s) (currentRunner s);
      mret s
  else mret s.

(** [inputController()]. The locals [averageTime] and [sortedListHead] of
    lines 165-166 die with the call. *)
Definition inputController (fuel : nat) (s : state) (PIND PINE TCNT1 : Z)
    : outcome state :=
  if negb (Z.land PIND 1 =? 0)
  then
    if negb (clockRunning s =? 0)
    then
      let s := set_clockRunning 0 s in
      let s := stopTimer s in
      averageTime ← averageLapTime fuel s;
      '(sortedListHead, s) ← sortedByTime fuel s (runnerListHead s);
      mret s
    else
      let s := startTimer s in
      let s := set_clockRunning 1 s in
      inputController_runner fuel s PIND PINE TCNT1
  else inputController_runner fuel s PIND PINE TCNT1.

(** Bit number of the mode bit that [initTimer] sets in [TCCR1B], from the
    device header of the ATmega128. *)
Definition WGM12 : Z := 3.

(** The state in which [main] enters its loop (lines 386-391): the
    initialisers of the globals and of the [static] locals, what
    [initTimer] wrote to the timer control register, and the one node that
    line 391 allocates. *)
Definition main_init : state :=
  let '(head, h) := malloc ∅ in
  mk_state (mk_time 0 0 0) (Some head) h None 0
           (mk_runner 0 0 (mk_time 0 0 0)) (u8 (Z.shiftl 1 WGM12)) 0.

(** The runner start events of a race: one [addRunner] on the registry per
    arriving runner, as line 216 does. *)
Fixpoint addRunners (fuel : nat) (s : state) (arrivals : list runner_type)
    : outcome state :=
  match arrivals with
  | [] => mret s
  | r :: arrivals' =>
      '(_, s) ← addRunner fuel s (runnerListHead s) r;
      addRunners fuel s arrivals'
  end.


(** One round of the loop of [main] (lines 393-397): a call of
    [inputController] and a call of [outputBest]. *)
Definition main_iteration (fuel : nat) (s : state) (PIND PINE TCNT1 : Z)
    : outcome state :=
  s ← inputController fuel s PIND PINE TCNT1;
  outputBest fuel s.

End Program.

(** * Views of the registry

    The loops of the program read on the list of runners that a registry
    holds, the quantities the properties are stated with, and concrete
    registries to evaluate the program on. *)

(** A runner whose lap is over: [running] is 0. *)
Definition finished (r : runner_type) : Prop := running r = 0.

#[global] Instance finished_dec (r : runner_type) : Decision (finished r) :=
  decide (running r = 0).

Definition finishers (l : list runner_type) : list runner_type := filter finished l.

(** The sum of a field over a list of runners. *)
Definition total_of (f : runner_type -> Z) (l : list runner_type) : Z :=
  foldr (fun r acc => f r + acc) 0 l.

(** The loop of [averageLapTime] read on the list of runners. *)
Fixpoint tally (l : list runner_type) (runners : Z) (total : time_type) : Z * time_type :=
  match l with
  | [] => (runners, total)
  | r :: l' =>
      if running r =? 0
      then tally l' (u8 (runners + 1))
             (mk_time (u8 (min total + min (time r)))
                      (u8 (sec total + sec (time r)))
                      (u8 (hSec total + hSec (time r))))
      else tally l' runners total
  end.

(** The loop of [outputBest] read on the list of runners. *)
Fixpoint best_scan (l : list runner_type) (bestTimeID bestTimeSec : Z) : Z * Z :=
  match l with
  | [] => (bestTimeID, bestTimeSec)
  | r :: l' =>
      if running r =? 0
      then
        if bestTimeSec >? getTimeInSec r
        then best_scan l' (id r) (getTimeInSec r)
        else best_scan l' bestTimeID bestTimeSec
      else (bestTimeID, bestTimeSec)
  end.

(** The finished entries before the first entry that is still running. *)
Fixpoint finished_prefix (l : list runner_type) : list runner_type :=
  match l with
  | [] => []
  | r :: l' => if running r =? 0 then r :: finished_prefix l' else []
  end.

(** The average as the specification words it, over unbounded integers: the
    sum of [minutes*60+seconds] over the finished runners, divided by their
    number, split into minutes and seconds; and the average of their
    sub-seconds. *)
Definition spec_average (l : list runner_type) : time_type :=
  let fin := finishers l in
  let n := Z.of_nat (length fin) in
  let avg := total_of whole_seconds fin / n in
  mk_time (avg / 60) (avg mod 60) (total_of (fun r => hSec (time r)) fin / n).

(** The property of [outputBest] that the specification states, in its
    weakest reading: the id written is that of some finished runner of the
    registry whose lap, in whole seconds, is no longer than that of any
    finished entry before the first entry still running. *)
Definition outputBest_claim (s : state) (l : list runner_type) : Prop :=
  exists fuel b,
    outputBest fuel s = Ret (set_PORTA (id b) s) /\
    b ∈ l /\
    running b = 0 /\
    forall x, x ∈ finished_prefix l -> whole_seconds b <= whole_seconds x.

(** A heap holding the runners [l] as a list that starts at [a] and uses
    consecutive locations. *)
Fixpoint heap_of (a : loc) (l : list runner_type) : gmap loc runner_node :=
  match l with
  | [] => ∅
  | r :: l' =>
      <[a := mk_node r None (match l' with [] => None | _ => Some (a + 1)%positive end)]>
        (heap_of (a + 1)%positive l')
  end.

(** A state whose registry holds [l], with the clock stopped at zero. *)
Definition registry_state (l : list runner_type) : state :=
  mk_state (mk_time 0 0 0) (match l with [] => None | _ => Some 1%positive end)
           (heap_of 1%positive l) None 0 (mk_runner 0 0 (mk_time 0 0 0)) 8 0.

(** Proves [is_list] on a concrete heap, node by node. *)
Ltac concrete_list :=
  repeat (do 2 eexists; split; [reflexivity|]; split; [reflexivity|];
          split; [reflexivity|]);
  reflexivity.

(** Fresh memory that holds zeros. *)
Definition zero_node : runner_node := mk_node (mk_runner 0 0 (mk_time 0 0 0)) None None.

Definition zero_memory : loc -> runner_node := fun _ => zero_node.

(** A race, on fresh memory that holds zeros. [race_started] is the state
    after a call of [inputController] with the start/stop signal set;
    [runner_5_running] is the state after ten timer interrupts and a call
    with the runner signal set and id 5 on the id port. *)
Definition race_started : state :=
  mk_state (mk_time 0 0 0) (Some 1%positive) {[ 1%positive := zero_node ]} None 1
           (mk_runner 0 0 (mk_time 0 0 0)) 11 0.

Definition runner_5 : runner_type := mk_runner 5 1 (mk_time 0 10 0).

Definition runner_5_running : state :=
  mk_state (mk_time 0 10 0) (Some 1%positive)
           (<[ 1%positive := mk_node runner_5 None None ]> {[ 2%positive := zero_node ]})
           (Some 1%positive) 1 runner_5 11 0.

(** Settles the tests [_ =? 0] of the goal from the hypotheses. *)
Ltac decide_tests :=
  repeat match goal with
         | |- context [?a =? 0] =>
             destruct (Z.eqb_spec a 0); try contradiction; try congruence; simpl
         end.


(** The time a clock shows, in seconds. *)
Definition clock_seconds (t : time_type) : Z := min t * 60 + sec t.


(** The record of a runner who starts now: the id on the id port, the
    running flag, and the time of the clock with the counter register as
    sub-seconds (lines 206-214). *)
Definition start_stamp (s : state) (PINE TCNT1 : Z) : runner_type :=
  mk_runner (u8 PINE) 1 (mk_time (min (clock s)) (sec (clock s)) (u8 TCNT1)).


(** The states of a run of the program: the state in which [main] enters
    its loop, and from a state of the run the state after a timer interrupt,
    after a call of [inputController] that returns and after a call of
    [outputBest] that returns. *)
Inductive reachable (uninit_node : loc -> runner_node) (uninit_runner : runner_type)
    (uninit_time : time_type) (free_sortingArray : outcome unit) : state -> Prop :=
| reach_main :
    reachable uninit_node uninit_runner uninit_time free_sortingArray
      (main_init uninit_node)
| reach_interrupt (s : state) (TCNT1 : Z) :
    reachable uninit_node uninit_runner uninit_time free_sortingArray s ->
    reachable uninit_node uninit_runner uninit_time free_sortingArray
      (ISR_TIMER1_COMPA s TCNT1)
| reach_input (s s' : state) (fuel : nat) (PIND PINE TCNT1 : Z) :
    reachable uninit_node uninit_runner uninit_time free_sortingArray s ->
    inputController uninit_node uninit_runner uninit_time free_sortingArray
      fuel s PIND PINE TCNT1 = Ret s' ->
    reachable uninit_node uninit_runner uninit_time free_sortingArray s'
| reach_output (s s' : state) (fuel : nat) :
    reachable uninit_node uninit_runner uninit_time free_sortingArray s ->
    outputBest fuel s = Ret s' ->
    reachable uninit_node uninit_runner uninit_time free_sortingArray s'.


(** What holds of the registry and of the clock throughout a run: the
    registry is a list of one node; the record in it is the one the node
    held when [main] obtained it from [malloc], or it is marked running;
    while a runner is in flight the record is his; the fields of the clock
    are 8-bit values and its seconds are at most 59. *)
Definition run_invariant (uninit_node : loc -> runner_node) (s : state) : Prop :=
  (exists x,
      is_list (heap s) (runnerListHead s) [x] /\
      (x = runner (uninit_node (fresh (dom (∅ : gmap loc runner_node)))) \/
       running x = 1)) /\
  (running (currentRunner s) <> 0 ->
   is_list (heap s) (runnerListHead s) [currentRunner s]) /\
  wf_time (clock s) /\ sec (clock s) <= 59.

(** * Properties *)

(** ** Arithmetic of [uint8_t] *)

Lemma u8_range (z : Z) : is_u8 (u8 z).
Proof. unfold is_u8, u8. apply Z.mod_pos_bound. lia. Qed.

Lemma u8_id (z : Z) : is_u8 z -> u8 z = z.
Proof. unfold is_u8, u8. intros H. apply Z.mod_small. lia. Qed.

Lemma u8_add_l (a b : Z) : u8 (u8 a + b) = u8 (a + b).
Proof. unfold u8. apply Zplus_mod_idemp_l. Qed.

(** ** The clock *)

Lemma incClock_wf (t : time_type) (TCNT1 : Z) : wf_time t -> wf_time (incClock t TCNT1).
Proof.
  intros (Hm & Hs & Hh). unfold incClock, wf_time.
  destruct (sec t <? 59); cbn [min sec hSec]; repeat split;
    try apply u8_range; unfold is_u8 in *; lia.
Qed.

Lemma ticks_wf (samples : list Z) (t : time_type) : wf_time t -> wf_time (ticks t samples).
Proof.
  unfold ticks. revert t.
  induction samples as [|x samples IH]; intros t Ht; simpl; [assumption|].
  apply IH. now apply incClock_wf.
Qed.

(** C7. After any interrupt, whatever interrupts came before it, the
    seconds of the clock lie in [0,59]: below 59 they advance by one and the
    minutes stay; from 59 on they return to 0 and the minutes advance by one
    (in [uint8_t] arithmetic). *)
Theorem incClock_seconds_in_range (t : time_type) (samples : list Z) (TCNT1 : Z) :
  wf_time t ->
  let before := ticks t samples in
  let after := incClock before TCNT1 in
  0 <= sec after <= 59 /\
  (sec before < 59 -> sec after = sec before + 1 /\ min after = min before) /\
  (59 <= sec before -> sec after = 0 /\ min after = u8 (min before + 1)).
Proof.
  intros Ht before after.
  destruct (ticks_wf samples t Ht) as (_ & Hs & _). fold before in Hs.
  subst after. unfold incClock.
  destruct (Z.ltb_spec (sec before) 59) as [Hlt | Hge]; simpl.
  - rewrite u8_id by (unfold is_u8 in *; lia).
    unfold is_u8 in Hs. repeat split; lia.
  - repeat split; lia.
Qed.

(** At the start of the program's clock: 59 interrupts bring it to 0:59, and
    the next one to 1:00. *)
Lemma incClock_seconds_in_range_witness :
  let before := ticks (mk_time 0 0 0) (replicate 59 0) in
  let after := incClock before 0 in
  0 <= sec after <= 59 /\
  (sec before < 59 -> sec after = sec before + 1 /\ min after = min before) /\
  (59 <= sec before -> sec after = 0 /\ min after = u8 (min before + 1)).
Proof.
  apply (incClock_seconds_in_range (mk_time 0 0 0) (replicate 59 0) 0).
  unfold wf_time, is_u8. simpl. lia.
Defined.

(** ** Lap time of the runner in flight *)

(** The race of [race_started] and [runner_5_running], run from the initial
    state of [main]. *)
Lemma race_to_runner_5_running :
  inputController zero_memory (runner zero_node) (mk_time 0 0 0) (Ret tt) 1
    (main_init zero_memory) 1 0 0 = Ret race_started /\
  inputController zero_memory (runner zero_node) (mk_time 0 0 0) (Ret tt) 1
    (foldl ISR_TIMER1_COMPA race_started (replicate 10 0)) 16 5 0 = Ret runner_5_running.
Proof. split; vm_compute; reflexivity. Qed.

(** C8. When the runner signal arrives while a runner is in flight, the
    controller returns, and the lap time it records in [currentRunner] is
    the difference of the finish time (the clock's minutes and seconds and
    the counter register) and the start time, taken field by field in
    [uint8_t] arithmetic: no field borrows from or carries into another.
    The runner keeps its id and is marked as no longer running; the heap,
    and with it the registry, is as before. *)
Theorem lap_time_is_fieldwise_difference
    (uninit_node : loc -> runner_node) (uninit_runner : runner_type)
    (uninit_time : time_type) (free_sortingArray : outcome unit)
    (fuel : nat) (s : state) (PIND PINE TCNT1 : Z) :
  Z.land PIND (Z.shiftl 1 4) <> 0 ->
  running (currentRunner s) <> 0 ->
  (Z.land PIND 1 = 0 /\ clockRunning s <> 0) \/
  (Z.land PIND 1 <> 0 /\ clockRunning s = 0) ->
  let start := time (currentRunner s) in
  let finish := mk_time (min (clock s)) (sec (clock s)) TCNT1 in
  let lap := mk_time (u8 (min finish - min start))
                     (u8 (sec finish - sec start))
                     (u8 (hSec finish - hSec start)) in
  exists s',
    inputController uninit_node uninit_runner uninit_time free_sortingArray fuel s PIND PINE TCNT1 = Ret s' /\
    currentRunner s' = mk_runner (id (currentRunner s)) 0 lap /\
    heap s' = heap s /\ runnerListHead s' = runnerListHead s.
Proof.
  intros H4 Hr Hsig start finish lap.
  unfold inputController, inputController_runner.
  destruct Hsig as [[H0 Hc] | [H0 Hc]].
  - rewrite H0. simpl. decide_tests.
    eexists. split; [reflexivity|]. simpl. auto.
  - decide_tests.
    eexists. split; [reflexivity|]. simpl. auto.
Qed.

(** Runner 5, who started at 0:10 with the counter at 0, finishes 35
    interrupts later, at 0:45 with the counter at 0: the lap is 0:35. *)
Lemma lap_time_is_fieldwise_difference_witness :
  let s := foldl ISR_TIMER1_COMPA runner_5_running (replicate 35 0) in
  clock s = mk_time 0 45 0 /\
  exists s',
    inputController zero_memory (runner zero_node) (mk_time 0 0 0) (Ret tt) 1 s 16 5 0 = Ret s' /\
    currentRunner s' = mk_runner 5 0 (mk_time 0 35 0) /\
    heap s' = heap s /\ runnerListHead s' = runnerListHead s.
Proof.
  intros s. split; [reflexivity|].
  apply (lap_time_is_fieldwise_difference
           zero_memory (runner zero_node) (mk_time 0 0 0) (Ret tt) 1 s 16 5 0).
  - vm_compute. discriminate.
  - vm_compute. discriminate.
  - left. split; [reflexivity | vm_compute; discriminate].
Defined.

(** ** Traversals of a well-formed list *)

Lemma snapshot_is_list (h : gmap loc runner_node) (l : list runner_type) :
  forall (fuel : nat) (p : ptr),
    is_list h p l -> (length l < fuel)%nat -> snapshot fuel h p = Ret l.
Proof.
  induction l as [|r l IH]; intros fuel p Hl Hf; destruct fuel as [|fuel];
    simpl in Hf; try lia.
  - simpl in Hl. subst p. reflexivity.
  - destruct Hl as (a & nd & -> & Ha & <- & Hl). simpl. rewrite Ha. simpl.
    rewrite (IH fuel (next nd) Hl) by lia. reflexivity.
Qed.

Lemma averageLapTime_loop_tally (h : gmap loc runner_node) (l : list runner_type) :
  forall (fuel : nat) (p : ptr) (runners : Z) (total : time_type),
    is_list h p l -> (length l < fuel)%nat ->
    averageLapTime_loop fuel h p runners total = Ret (tally l runners total).
Proof.
  induction l as [|r l IH]; intros fuel p n tot Hl Hf; destruct fuel as [|fuel];
    simpl in Hf; try lia.
  - simpl in Hl. subst p. reflexivity.
  - destruct Hl as (a & nd & -> & Ha & <- & Hl). simpl. rewrite Ha. simpl.
    destruct (running (runner nd) =? 0); apply IH; auto; lia.
Qed.

Lemma finishers_cons (r : runner_type) (l : list runner_type) :
  finishers (r :: l) = if running r =? 0 then r :: finishers l else finishers l.
Proof.
  unfold finishers. destruct (Z.eqb_spec (running r) 0) as [E|E].
  - now rewrite filter_cons_True.
  - now rewrite filter_cons_False.
Qed.

(** The counters after the loop, in [uint8_t] arithmetic: each is the sum
    over the finished runners, reduced modulo 256. *)
Lemma tally_sums (l : list runner_type) :
  forall (runners : Z) (total : time_type),
    is_u8 runners -> wf_time total ->
    tally l runners total =
      (u8 (runners + Z.of_nat (length (finishers l))),
       mk_time (u8 (min total + total_of (fun r => min (time r)) (finishers l)))
               (u8 (sec total + total_of (fun r => sec (time r)) (finishers l)))
               (u8 (hSec total + total_of (fun r => hSec (time r)) (finishers l)))).
Proof.
  induction l as [|r l IH]; intros n tot Hn (Hm & Hs & Hh).
  - simpl. rewrite !Z.add_0_r, !u8_id by assumption. now destruct tot.
  - rewrite finishers_cons. simpl. destruct (running r =? 0).
    + rewrite IH by (repeat split; apply u8_range).
      cbn [min sec hSec length total_of foldr]. rewrite !u8_add_l.
      f_equal; [|f_equal]; f_equal; unfold total_of; lia.
    + apply IH; [assumption | unfold wf_time; auto].
Qed.

Lemma total_of_nonneg (f : runner_type -> Z) (l : list runner_type) :
  Forall (fun r => 0 <= f r) l -> 0 <= total_of f l.
Proof. induction 1; simpl; lia. Qed.

Lemma total_of_whole_seconds (l : list runner_type) :
  total_of whole_seconds l =
    total_of (fun r => min (time r)) l * 60 + total_of (fun r => sec (time r)) l.
Proof. induction l as [|r l IH]; simpl; [reflexivity|]. unfold whole_seconds at 1. lia. Qed.

(** ** Average lap time *)

(** The value of [averageLapTime] on every well-formed registry. *)
Lemma averageLapTime_value (uninit_time : time_type) (fuel : nat) (s : state)
    (l : list runner_type) :
  is_list (heap s) (runnerListHead s) l -> (length l < fuel)%nat ->
  let runners := u8 (Z.of_nat (length (finishers l))) in
  let total :=
    mk_time (u8 (total_of (fun r => min (time r)) (finishers l)))
            (u8 (total_of (fun r => sec (time r)) (finishers l)))
            (u8 (total_of (fun r => hSec (time r)) (finishers l))) in
  averageLapTime uninit_time fuel s =
    Ret (if runners >? 1
         then
           let averSec := u8 (u8 (min total * 60 + sec total) `quot` runners) in
           mk_time (u8 (averSec `quot` 60)) (u8 (averSec `rem` 60))
                   (u8 (hSec total `quot` runners))
         else uninit_time).
Proof.
  intros Hl Hf runners total. unfold averageLapTime.
  rewrite (averageLapTime_loop_tally _ l) by assumption.
  rewrite tally_sums by (unfold wf_time, is_u8; simpl; lia).
  subst runners total. cbn [mbind outcome_bind min sec hSec]. rewrite !Z.add_0_l.
  destruct (u8 (Z.of_nat (length (finishers l))) >? 1); reflexivity.
Qed.

(** C3. On a registry with no or one finished runner, [averageLapTime]
    returns what its local [averageTime] held on entry, which line 232
    leaves uninitialised: any timestamp, not the zero timestamp. *)
Theorem averageLapTime_few_finishers_uninitialised
    (uninit_time : time_type) (fuel : nat) (s : state) (l : list runner_type) :
  is_list (heap s) (runnerListHead s) l -> (length l < fuel)%nat ->
  (length (finishers l) <= 1)%nat ->
  averageLapTime uninit_time fuel s = Ret uninit_time.
Proof.
  intros Hl Hf Hn. rewrite (averageLapTime_value _ _ _ l) by assumption.
  cbv zeta. rewrite u8_id by (unfold is_u8; lia).
  destruct (Z.gtb_spec (Z.of_nat (length (finishers l))) 1); [lia | reflexivity].
Qed.

(** The registry of [runner_5_running], whose only runner is still
    running, entered with 1:02.03 in the uninitialised local: that timestamp
    is the result. *)
Lemma averageLapTime_few_finishers_uninitialised_witness :
  averageLapTime (mk_time 1 2 3) 2 runner_5_running = Ret (mk_time 1 2 3).
Proof.
  apply (averageLapTime_few_finishers_uninitialised (mk_time 1 2 3) 2
           runner_5_running [runner_5]).
  - concrete_list.
  - simpl. lia.
  - vm_compute. lia.
Defined.

Lemma Forall_finishers (P : runner_type -> Prop) (l : list runner_type) :
  Forall P l -> Forall P (finishers l).
Proof.
  intros H. unfold finishers. rewrite Forall_forall in *.
  intros x Hx. apply H. now apply list_elem_of_filter in Hx as [_ Hx].
Qed.

(** C4, amended. On a well-formed registry with between 2 and 255 finished
    runners whose whole seconds sum to at most 255, and whose sub-seconds
    sum to at most 255, [averageLapTime] returns the truncated average of
    [minutes*60+seconds] over the finished runners, split into minutes and
    seconds, with the truncated average of their sub-seconds; runners that
    are still running do not count. *)
Theorem averageLapTime_without_overflow
    (uninit_time : time_type) (fuel : nat) (s : state) (l : list runner_type) :
  is_list (heap s) (runnerListHead s) l -> (length l < fuel)%nat ->
  Forall wf_runner l ->
  (2 <= length (finishers l) <= 255)%nat ->
  total_of whole_seconds (finishers l) <= 255 ->
  total_of (fun r => hSec (time r)) (finishers l) <= 255 ->
  averageLapTime uninit_time fuel s = Ret (spec_average l).
Proof.
  intros Hl Hf Hwf Hn HS HH.
  rewrite (averageLapTime_value _ _ _ l) by assumption.
  unfold spec_average. cbv zeta.
  apply Forall_finishers in Hwf.
  set (fin := finishers l) in *.
  set (n := Z.of_nat (length fin)).
  assert (Hmin : 0 <= total_of (fun r => min (time r)) fin).
  { apply total_of_nonneg. eapply Forall_impl; [exact Hwf|].
    intros r (_ & _ & (H & _)). unfold is_u8 in H. simpl. lia. }
  assert (Hsec : 0 <= total_of (fun r => sec (time r)) fin).
  { apply total_of_nonneg. eapply Forall_impl; [exact Hwf|].
    intros r (_ & _ & (_ & H & _)). unfold is_u8 in H. simpl. lia. }
  assert (Hhs : 0 <= total_of (fun r => hSec (time r)) fin).
  { apply total_of_nonneg. eapply Forall_impl; [exact Hwf|].
    intros r (_ & _ & (_ & _ & H)). unfold is_u8 in H. simpl. lia. }
  pose proof (total_of_whole_seconds fin) as HW.
  assert (Hn' : 2 <= n <= 255) by (subst n; lia).
  rewrite (u8_id n) by (unfold is_u8; lia).
  destruct (Z.gtb_spec n 1) as [_|]; [|lia].
  cbn [min sec hSec].
  rewrite (u8_id (total_of (fun r => min (time r)) fin)) by (unfold is_u8; lia).
  rewrite (u8_id (total_of (fun r => sec (time r)) fin)) by (unfold is_u8; lia).
  rewrite (u8_id (total_of (fun r => hSec (time r)) fin)) by (unfold is_u8; lia).
  rewrite <- HW.
  set (S := total_of whole_seconds fin) in *.
  set (H := total_of (fun r => hSec (time r)) fin) in *.
  assert (HS0 : 0 <= S) by lia.
  rewrite (u8_id S) by (unfold is_u8; lia).
  rewrite (Z.quot_div_nonneg S n), (Z.quot_div_nonneg H n) by lia.
  assert (Ha : 0 <= S / n <= 255).
  { split; [apply Z.div_pos; lia|].
    transitivity S; [apply Z.div_le_upper_bound; nia | lia]. }
  assert (Hb : 0 <= H / n <= 255).
  { split; [apply Z.div_pos; lia|].
    transitivity H; [apply Z.div_le_upper_bound; nia | lia]. }
  rewrite (u8_id (S / n)) by (unfold is_u8; lia).
  rewrite Z.quot_div_nonneg, Z.rem_mod_nonneg by lia.
  pose proof (Z.mod_pos_bound (S / n) 60 ltac:(lia)).
  assert (0 <= S / n / 60 <= 255).
  { split; [apply Z.div_pos; lia|].
    transitivity (S / n); [apply Z.div_le_upper_bound; nia | lia]. }
  rewrite !u8_id by (unfold is_u8; lia).
  reflexivity.
Qed.

(** Two finished runners with laps 0:35.10 and 0:20.05 and a third still
    running: the average is 0:27.07. *)
Lemma averageLapTime_without_overflow_witness :
  averageLapTime (mk_time 9 9 9) 4
    (registry_state [mk_runner 1 0 (mk_time 0 35 10); mk_runner 2 1 (mk_time 0 50 0);
                     mk_runner 3 0 (mk_time 0 20 5)])
    = Ret (mk_time 0 27 7).
Proof.
  apply (averageLapTime_without_overflow (mk_time 9 9 9) 4
           (registry_state [mk_runner 1 0 (mk_time 0 35 10); mk_runner 2 1 (mk_time 0 50 0);
                            mk_runner 3 0 (mk_time 0 20 5)])
           [mk_runner 1 0 (mk_time 0 35 10); mk_runner 2 1 (mk_time 0 50 0);
            mk_runner 3 0 (mk_time 0 20 5)]).
  - concrete_list.
  - simpl. lia.
  - repeat constructor; simpl; lia.
  - vm_compute. lia.
  - vm_compute. discriminate.
  - vm_compute. discriminate.
Defined.

(** C4 as stated fails where the 8-bit sums wrap: two finished runners with
    laps 2:00 and 2:30 average 2:15, and [averageLapTime] returns 0:07
    (270 seconds are 14 modulo 256). *)
Lemma averageLapTime_overflow_counterexample :
  let l := [mk_runner 1 0 (mk_time 2 0 0); mk_runner 2 0 (mk_time 2 30 0)] in
  let s := registry_state l in
  is_list (heap s) (runnerListHead s) l /\
  (2 <= length (finishers l))%nat /\
  spec_average l = mk_time 2 15 0 /\
  averageLapTime (mk_time 0 0 0) 3 s = Ret (mk_time 0 7 0) /\
  averageLapTime (mk_time 0 0 0) 3 s <> Ret (spec_average l).
Proof.
  intros l s. split; [concrete_list|].
  split; [vm_compute; lia|].
  split; [reflexivity|].
  split; [reflexivity|].
  vm_compute. discriminate.
Qed.

(** ** Best runner *)

Lemma outputBest_loop_scan (h : gmap loc runner_node) (l : list runner_type) :
  forall (fuel : nat) (p : ptr) (bestTimeID bestTimeSec : Z),
    is_list h p l -> (length l < fuel)%nat ->
    outputBest_loop fuel h p bestTimeID bestTimeSec =
      Ret (best_scan l bestTimeID bestTimeSec).
Proof.
  induction l as [|r l IH]; intros fuel p b t Hl Hf; destruct fuel as [|fuel];
    simpl in Hf; try lia.
  - simpl in Hl. subst p. reflexivity.
  - destruct Hl as (a & nd & -> & Ha & <- & Hl). simpl. rewrite Ha. simpl.
    destruct (running (runner nd) =? 0); [|reflexivity].
    destruct (t >? getTimeInSec (runner nd)); apply IH; auto; lia.
Qed.

Lemma finished_prefix_finished (l : list runner_type) (x : runner_type) :
  x ∈ finished_prefix l -> running x = 0.
Proof.
  induction l as [|r l IH]; simpl; [intros H; inversion H|].
  destruct (Z.eqb_spec (running r) 0) as [E|E]; [|intros H; inversion H].
  intros [-> | H]%elem_of_cons; auto.
Qed.

(** The scan ends on a key that is no larger than the key it started with
    and than every key of the finished prefix; and either nothing changed,
    or the id is that of a runner of the prefix which has this key. *)
Lemma best_scan_minimal (l : list runner_type) :
  forall (b t : Z),
    let '(b', t') := best_scan l b t in
    t' <= t /\
    (forall x, x ∈ finished_prefix l -> t' <= getTimeInSec x) /\
    ((b', t') = (b, t) \/
     exists x, x ∈ finished_prefix l /\ id x = b' /\ getTimeInSec x = t').
Proof.
  induction l as [|r l IH]; intros b t; simpl.
  - split; [lia|]. split; [intros x H; inversion H | now left].
  - destruct (running r =? 0).
    + destruct (Z.gtb_spec t (getTimeInSec r)) as [Hgt|Hle].
      * specialize (IH (id r) (getTimeInSec r)).
        destruct (best_scan l (id r) (getTimeInSec r)) as [b' t'].
        destruct IH as (H1 & H2 & H3). split; [lia|]. split.
        -- intros x [-> | Hx]%elem_of_cons; [lia | now apply H2].
        -- right. destruct H3 as [H3 | (x & Hx & Hid & Hk)].
           ++ inversion H3; subst. exists r. split; [left|]; auto.
           ++ exists x. split; [right|]; auto.
      * specialize (IH b t).
        destruct (best_scan l b t) as [b' t'].
        destruct IH as (H1 & H2 & H3). split; [lia|]. split.
        -- intros x [-> | Hx]%elem_of_cons; [lia | now apply H2].
        -- destruct H3 as [H3 | (x & Hx & Hid & Hk)]; [now left|].
           right. exists x. split; [right|]; auto.
    + split; [lia|]. split; [intros x H; inversion H | now left].
Qed.

(** The value of [outputBest] on every well-formed, non-empty registry. *)
Lemma outputBest_value (fuel : nat) (s : state) (r : runner_type) (l : list runner_type) :
  is_list (heap s) (runnerListHead s) (r :: l) -> (length (r :: l) < fuel)%nat ->
  outputBest fuel s =
    Ret (set_PORTA (fst (best_scan (r :: l) (id r) (getTimeInSec r))) s).
Proof.
  intros Hl Hf.
  pose proof (outputBest_loop_scan _ _ fuel _ (id r) (getTimeInSec r) Hl Hf) as Hloop.
  unfold outputBest. destruct Hl as (a & nd & Hp & Ha & Hrn & _).
  rewrite Hp. cbn [load]. rewrite Ha. cbn [mbind outcome_bind].
  rewrite <- Hp, Hrn, Hloop. cbn [mbind outcome_bind mret outcome_ret].
  now destruct (best_scan (r :: l) (id r) (getTimeInSec r)).
Qed.

(** C6, amended. On a well-formed registry whose first entry is finished,
    [outputBest] writes to the output port the id of a runner that is
    finished, stands before the first entry still running, and whose 8-bit
    key (see [getTimeInSec]) is least among the finished entries before the
    first entry still running. *)
Theorem outputBest_least_key (fuel : nat) (s : state) (r : runner_type)
    (l : list runner_type) :
  is_list (heap s) (runnerListHead s) (r :: l) -> (length (r :: l) < fuel)%nat ->
  running r = 0 ->
  exists b,
    outputBest fuel s = Ret (set_PORTA (id b) s) /\
    b ∈ finished_prefix (r :: l) /\
    running b = 0 /\
    forall x, x ∈ finished_prefix (r :: l) -> getTimeInSec b <= getTimeInSec x.
Proof.
  intros Hl Hf Hr.
  pose proof (outputBest_value fuel s r l Hl Hf) as Hval.
  pose proof (best_scan_minimal (r :: l) (id r) (getTimeInSec r)) as Hmin.
  destruct (best_scan (r :: l) (id r) (getTimeInSec r)) as [b' t'].
  destruct Hmin as (H1 & H2 & H3).
  assert (Hin : r ∈ finished_prefix (r :: l)).
  { simpl. rewrite Hr. simpl. left. }
  assert (Hb : exists x, x ∈ finished_prefix (r :: l) /\ id x = b' /\ getTimeInSec x = t').
  { destruct H3 as [H3 | H3]; [|exact H3]. inversion H3; subst. now exists r. }
  destruct Hb as (x & Hx & Hid & Hk). exists x.
  split; [|split; [exact Hx|split; [now apply (finished_prefix_finished (r :: l))|]]].
  - rewrite Hval. cbn [fst]. now rewrite Hid.
  - intros y Hy. rewrite Hk. now apply H2.
Qed.

(** Laps 0:35 and 0:20, then a runner still running with start time 0:01:
    the id written is that of the 20-second runner. *)
Lemma outputBest_least_key_witness :
  let l := [mk_runner 1 0 (mk_time 0 35 0); mk_runner 2 0 (mk_time 0 20 0);
            mk_runner 3 1 (mk_time 0 1 0)] in
  exists b,
    outputBest 4 (registry_state l) = Ret (set_PORTA (id b) (registry_state l)) /\
    b ∈ finished_prefix l /\
    running b = 0 /\
    forall x, x ∈ finished_prefix l -> getTimeInSec b <= getTimeInSec x.
Proof.
  intros l.
  apply (outputBest_least_key 4 (registry_state l)
           (mk_runner 1 0 (mk_time 0 35 0))
           [mk_runner 2 0 (mk_time 0 20 0); mk_runner 3 1 (mk_time 0 1 0)]).
  - concrete_list.
  - simpl. lia.
  - reflexivity.
Defined.

(** C6 as stated fails where the 8-bit key wraps: of two finished runners
    with laps 4:20 (260 seconds, key 4) and 0:30, the first is reported. *)
Lemma outputBest_residue_counterexample :
  let l := [mk_runner 1 0 (mk_time 4 20 0); mk_runner 2 0 (mk_time 0 30 0)] in
  let s := registry_state l in
  is_list (heap s) (runnerListHead s) l /\
  (exists r, r ∈ l /\ running r = 0) /\
  outputBest 3 s = Ret (set_PORTA 1 s) /\
  ~ outputBest_claim s l.
Proof.
  intros l s.
  assert (Hl : is_list (heap s) (runnerListHead s) l) by concrete_list.
  split; [exact Hl|].
  split; [exists (mk_runner 1 0 (mk_time 4 20 0)); split; [left | reflexivity]|].
  split; [reflexivity|].
  intros (fuel & b & Hout & Hin & Hrun & Hmin).
  assert (Hid : id b = 1).
  { destruct (le_lt_dec fuel 2) as [Hle|Hgt].
    - destruct fuel as [|[|[|fuel]]]; try lia; vm_compute in Hout; discriminate.
    - rewrite (outputBest_value fuel s _ _ Hl) in Hout by (simpl; lia).
      injection Hout as Hout. symmetry. exact Hout. }
  specialize (Hmin (mk_runner 2 0 (mk_time 0 30 0))).
  apply elem_of_cons in Hin as [-> | Hin].
  - assert (H : whole_seconds (mk_runner 1 0 (mk_time 4 20 0))
                <= whole_seconds (mk_runner 2 0 (mk_time 0 30 0))).
    { apply Hmin. simpl. right. left. }
    vm_compute in H. apply H. reflexivity.
  - apply elem_of_cons in Hin as [-> | Hin]; [discriminate Hid | inversion Hin].
Qed.

(** A registry whose first runner is still running and whose second has
    finished: the id written is that of the runner still running. *)
Lemma outputBest_running_head :
  let l := [mk_runner 7 1 (mk_time 0 5 0); mk_runner 3 0 (mk_time 0 30 0)] in
  outputBest 3 (registry_state l) = Ret (set_PORTA 7 (registry_state l)).
Proof. reflexivity. Qed.

(** ** The time key *)

Lemma gtb_irrefl (x : Z) : (x >? x) = false.
Proof. rewrite Z.gtb_ltb. apply Z.ltb_irrefl. Qed.

(** C10. The key that ranking and best-time reporting compare is the lap
    time in whole seconds reduced modulo 256. Laps that differ by a multiple
    of 256 seconds have the same key. The comparison step of the ranking
    loop on two neighbours, and best-time reporting on a registry of two
    finished runners, decide by the residues alone: with equal residues the
    neighbours stay as they are and the first runner is reported. *)
Theorem time_key_is_residue_mod_256 (a b : runner_type) :
  getTimeInSec a = whole_seconds a mod 256 /\
  (forall k : Z, whole_seconds a = whole_seconds b + 256 * k ->
                 getTimeInSec a = getTimeInSec b) /\
  sortedByTime_inner 2 [a; b] 1 1 =
    Ret (if whole_seconds a mod 256 >? whole_seconds b mod 256 then [b; a] else [a; b]) /\
  (forall s : state,
      is_list (heap s) (runnerListHead s) [a; b] -> running a = 0 -> running b = 0 ->
      outputBest 3 s =
        Ret (set_PORTA (if whole_seconds a mod 256 >? whole_seconds b mod 256
                        then id b else id a) s)).
Proof.
  split; [reflexivity|]. split; [|split].
  - intros k Hk. unfold getTimeInSec. fold (whole_seconds a). fold (whole_seconds b).
    rewrite Hk. unfold u8. rewrite Z.mul_comm. apply Z_mod_plus_full.
  - unfold sortedByTime_inner, array_get, array_set. simpl.
    unfold getTimeInSec, u8. fold (whole_seconds a). fold (whole_seconds b).
    destruct (whole_seconds a mod 256 >? whole_seconds b mod 256); reflexivity.
  - intros s Hl Ha Hb. rewrite (outputBest_value 3 s a [b] Hl) by (simpl; lia).
    cbn [best_scan]. rewrite Ha, Hb. cbn [Z.eqb]. rewrite gtb_irrefl.
    unfold getTimeInSec, u8. fold (whole_seconds a). fold (whole_seconds b).
    destruct (whole_seconds a mod 256 >? whole_seconds b mod 256); reflexivity.
Qed.

(** A lap of 4:20 (260 seconds) against a lap of 0:30: the keys are 4 and
    30, so ranking moves the longer lap to the front. *)
Lemma time_key_is_residue_mod_256_witness :
  let a := mk_runner 1 0 (mk_time 0 30 0) in
  let b := mk_runner 2 0 (mk_time 4 20 0) in
  getTimeInSec b = 4 /\ sortedByTime_inner 2 [a; b] 1 1 = Ret [b; a].
Proof.
  intros a b. split.
  - exact (proj1 (time_key_is_residue_mod_256 b a)).
  - exact (proj1 (proj2 (proj2 (time_key_is_residue_mod_256 a b)))).
Defined.

(** ** The registry *)

Section Registry.

Variable uninit_node : loc -> runner_node.

(** On a well-formed list the loop of [addRunner] stops at the last node;
    and a heap that agrees with this one except at that node, where it
    holds the runner [r] and [NULL] as successor, holds the same list with
    [r] in the place of the last runner. *)
Lemma addRunner_last_is_list (h : gmap loc runner_node) (x : runner_type)
    (l : list runner_type) :
  forall (fuel : nat) (p : ptr),
    is_list h p (l ++ [x]) -> (length l < fuel)%nat ->
    exists a nd,
      addRunner_last fuel h p = Ret a /\ h !! a = Some nd /\ next nd = None /\
      forall (h' : gmap loc runner_node) (r : runner_type) (pv : ptr),
        (forall b n, b <> a -> h !! b = Some n -> h' !! b = Some n) ->
        h' !! a = Some (mk_node r pv None) ->
        is_list h' p (l ++ [r]).
Proof.
  induction l as [|y l IH]; intros fuel p Hl Hf; destruct fuel as [|fuel];
    simpl in Hf; try lia.
  - destruct Hl as (a & nd & -> & Ha & _ & Hn). simpl in Hn.
    exists a, nd. cbn [addRunner_last load]. rewrite Ha. cbn [mbind outcome_bind].
    rewrite Hn. repeat split; auto.
    intros h' r pv _ Ha'. exists a, (mk_node r pv None). repeat split; auto.
  - destruct Hl as (a0 & nd0 & -> & Ha0 & Hy & Hrest).
    destruct (IH fuel (next nd0) Hrest ltac:(lia)) as (a & nd & Hlast & Ha & Hn & Hrepl).
    assert (Hnext : exists a1, next nd0 = Some a1).
    { destruct (l ++ [x]) as [|z l'] eqn:E; [now destruct l|].
      destruct Hrest as (a1 & _ & Hp & _). eauto. }
    destruct Hnext as (a1 & Hnext).
    exists a, nd. cbn [addRunner_last load]. rewrite Ha0. cbn [mbind outcome_bind].
    rewrite Hnext at 1. repeat split; auto.
    intros h' r pv Hsame Ha'.
    assert (Hne : a0 <> a) by congruence.
    exists a0, nd0. repeat split; auto. apply (Hrepl h' r pv Hsame Ha').
Qed.

(** [addRunner] stores the runner into the last node of the list: the node
    obtained from [malloc] is linked by line 145 and unlinked again by line
    148. *)
Lemma addRunner_replaces_last (fuel : nat) (s : state) (head : ptr)
    (l : list runner_type) (x r : runner_type) :
  is_list (heap s) head (l ++ [x]) -> (length l < fuel)%nat ->
  exists s',
    (exists current, addRunner uninit_node fuel s head r = Ret (current, s')) /\
    runnerListHead s' = runnerListHead s /\
    is_list (heap s') head (l ++ [r]).
Proof.
  intros Hl Hf.
  destruct (addRunner_last_is_list _ x l fuel head Hl Hf)
    as (a & nd & Hlast & Ha & Hn & Hrepl).
  set (fresh_node := fresh (dom (heap s))).
  assert (Hfresh : heap s !! fresh_node = None).
  { apply not_elem_of_dom. apply is_fresh. }
  assert (Hne : fresh_node <> a) by congruence.
  exists (set_addRunner_prev (Some a)
            (set_heap (<[a := mk_node r (addRunner_prev s) None]>
                         (<[fresh_node := uninit_node fresh_node]> (heap s))) s)).
  split; [exists (Some a)|split; [reflexivity|]].
  - unfold addRunner. rewrite Hlast. cbn [mbind outcome_bind mret outcome_ret].
    unfold malloc. fold fresh_node. unfold store.
    rewrite lookup_insert_ne, Ha by exact Hne. cbn [mbind outcome_bind].
    rewrite lookup_insert_eq. cbn [mbind outcome_bind]. rewrite insert_insert_eq.
    rewrite lookup_insert_eq. cbn [mbind outcome_bind]. rewrite insert_insert_eq.
    rewrite lookup_insert_eq. cbn [mbind outcome_bind]. rewrite insert_insert_eq.
    reflexivity.
  - apply (Hrepl _ r (addRunner_prev s)); cbn [heap set_heap set_addRunner_prev].
    + intros b n Hb Hbn. rewrite !lookup_insert_ne by congruence. exact Hbn.
    + apply lookup_insert_eq.
Qed.

(** C1. Appended to a well-formed registry that is not empty, such as the
    one node that [main] sets up, any number of runners leaves a registry of
    the same length, in which the runner that came last has taken the place
    of the last entry: no record is added, and the runners that came before
    the last are not in the registry. *)
Theorem addRunner_keeps_only_the_last (fuel : nat) (arrivals : list runner_type) :
  forall (s : state) (l : list runner_type) (x r : runner_type),
    is_list (heap s) (runnerListHead s) (l ++ [x]) -> (length l < fuel)%nat ->
    exists s',
      addRunners uninit_node fuel s (arrivals ++ [r]) = Ret s' /\
      snapshot (S (length (l ++ [r]))) (heap s') (runnerListHead s') = Ret (l ++ [r]).
Proof.
  induction arrivals as [|y arrivals IH]; intros s l x r Hl Hf.
  - destruct (addRunner_replaces_last fuel s _ l x r Hl Hf)
      as (s' & (current & Hadd) & Hhead & Hl').
    exists s'. split.
    + simpl. rewrite Hadd. reflexivity.
    + apply snapshot_is_list; [now rewrite Hhead | lia].
  - destruct (addRunner_replaces_last fuel s _ l x y Hl Hf)
      as (s1 & (current & Hadd) & Hhead & Hl1).
    rewrite <- Hhead in Hl1.
    destruct (IH s1 l y r Hl1 Hf) as (s' & Hrun & Hsnap).
    exists s'. split; [|exact Hsnap].
    simpl. rewrite Hadd. exact Hrun.
Qed.

(** The registry that [main] sets up is well formed when the [next] field
    of the node it obtains from [malloc] happens to hold [NULL]. *)
Lemma main_init_registry :
  next (uninit_node (fresh (dom (∅ : gmap loc runner_node)))) = None ->
  is_list (heap (main_init uninit_node)) (runnerListHead (main_init uninit_node))
    [runner (uninit_node (fresh (dom (∅ : gmap loc runner_node))))].
Proof.
  intros Hn. unfold main_init, malloc. cbn [heap runnerListHead].
  eexists _, _. split; [reflexivity|]. split; [apply lookup_insert_eq|].
  split; [reflexivity | exact Hn].
Qed.

End Registry.

(** From the initial state of [main], runner 1 and then runner 2 start: the
    registry holds runner 2 alone. *)
Lemma addRunner_keeps_only_the_last_witness :
  exists s',
    addRunners zero_memory 1 (main_init zero_memory)
      ([mk_runner 1 1 (mk_time 0 10 0)] ++ [mk_runner 2 1 (mk_time 0 20 0)]) = Ret s' /\
    snapshot 2 (heap s') (runnerListHead s') = Ret [mk_runner 2 1 (mk_time 0 20 0)].
Proof.
  apply (addRunner_keeps_only_the_last zero_memory 1
           [mk_runner 1 1 (mk_time 0 10 0)]
           (main_init zero_memory) [] (runner zero_node)).
  - concrete_list.
  - simpl. lia.
Defined.

(** ** Ranking *)

(** The outer loop of the sort never ends: its counter is a [uint8_t], so
    the test [i >= 0] holds on every round. *)
Lemma sortedByTime_outer_never_returns (fuel : nat) :
  forall (sortingArray : list runner_type) (i : Z),
    ~ returns (sortedByTime_outer fuel sortingArray (u8 i)).
Proof.
  induction fuel as [|fuel IH]; intros arr i [v Hv]; simpl in Hv; [discriminate|].
  pose proof (u8_range i) as Hi. unfold is_u8 in Hi.
  destruct (Z.geb_spec (u8 i) 0) as [_|]; [|lia].
  destruct (sortedByTime_inner fuel arr (u8 i) 1) as [arr'| |]; simpl in Hv;
    try discriminate.
  apply (IH arr' (u8 i - 1)). now exists v.
Qed.

(** [sortedByTime] yields no result, since its sorting loop yields none. *)
Lemma sortedByTime_no_result
    (uninit_node : loc -> runner_node) (uninit_runner : runner_type)
    (free_sortingArray : outcome unit) (fuel : nat) (s : state) (head : ptr) :
  ~ returns (sortedByTime uninit_node uninit_runner free_sortingArray fuel s head).
Proof.
  intros [v Hv]. unfold sortedByTime in Hv.
  destruct (sortedByTime_count fuel (heap s) head 0) as [listSize| |];
    simpl in Hv; try discriminate.
  destruct (sortedByTime_copy fuel (heap s) _ head 0 listSize) as [arr| |];
    simpl in Hv; try discriminate.
  destruct (freeRunnerList fuel (heap s) head) as [h| |]; simpl in Hv; try discriminate.
  destruct (sortedByTime_outer fuel arr (u8 (listSize - 1))) as [arr'| |] eqn:Hsort;
    simpl in Hv; try discriminate.
  apply (sortedByTime_outer_never_returns fuel arr (listSize - 1)). now exists arr'.
Qed.

(** C2. [sortedByTime] returns on no registry: whatever the loop budget, the
    sorting loop of lines 291-305 does not come to an end, and so the call
    yields no ranked sequence. *)
Theorem sortedByTime_never_returns
    (uninit_node : loc -> runner_node) (uninit_runner : runner_type)
    (free_sortingArray : outcome unit) (fuel : nat) (s : state) (head : ptr) :
  (forall (sortingArray : list runner_type) (i : Z),
      ~ returns (sortedByTime_outer fuel sortingArray (u8 i))) /\
  ~ returns (sortedByTime uninit_node uninit_runner free_sortingArray fuel s head).
Proof.
  split; [apply sortedByTime_outer_never_returns | apply sortedByTime_no_result].
Qed.

(** On the registry of [runner_5_running], and on an array of two runners
    with laps 0:35 and 0:20: with a small loop budget the call is still
    sorting when the budget ends; with a large one the counter of the outer
    loop has wrapped from 0 to 255 and the inner loop reads past the end of
    the array. (The call of [free] on the array is taken to return.) *)
Lemma sortedByTime_examples :
  let s := runner_5_running in
  sortedByTime zero_memory (runner zero_node) (Ret tt) 2 s (runnerListHead s) = OutOfFuel /\
  sortedByTime zero_memory (runner zero_node) (Ret tt) 300 s (runnerListHead s) = Undefined /\
  sortedByTime_outer 2
    [mk_runner 1 0 (mk_time 0 35 0); mk_runner 2 0 (mk_time 0 20 0)] 1 = OutOfFuel /\
  sortedByTime_outer 5
    [mk_runner 1 0 (mk_time 0 35 0); mk_runner 2 0 (mk_time 0 20 0)] 1 = Undefined.
Proof. repeat split; vm_compute; reflexivity. Qed.

(** ** The end of a race *)

(** C5. When the start/stop signal arrives while the clock is running, the
    controller does not return: the call of [sortedByTime] on line 177 does
    not, and so no state follows in which a ranked registry is installed. *)
Theorem inputController_stop_never_returns
    (uninit_node : loc -> runner_node) (uninit_runner : runner_type)
    (uninit_time : time_type) (free_sortingArray : outcome unit)
    (fuel : nat) (s : state) (PIND PINE TCNT1 : Z) :
  Z.land PIND 1 <> 0 -> clockRunning s <> 0 ->
  ~ returns (inputController uninit_node uninit_runner uninit_time free_sortingArray fuel s PIND PINE TCNT1).
Proof.
  intros H0 Hc [v Hv]. unfold inputController in Hv.
  destruct (Z.eqb_spec (Z.land PIND 1) 0) as [E|_]; [contradiction|].
  destruct (Z.eqb_spec (clockRunning s) 0) as [E|_]; [contradiction|].
  cbn [negb] in Hv.
  destruct (averageLapTime uninit_time fuel _) as [averageTime| |];
    cbn [mbind outcome_bind] in Hv; try discriminate.
  match type of Hv with
  | context [sortedByTime ?u ?r ?fr ?f ?s0 ?p] =>
      destruct (sortedByTime u r fr f s0 p) as [[sortedListHead s']| |] eqn:Hsort
  end; cbn [mbind outcome_bind] in Hv; try discriminate.
  eapply sortedByTime_no_result. eexists. exact Hsort.
Qed.

(** In [runner_5_running] the clock is running; the start/stop signal
    arrives. *)
Lemma inputController_stop_never_returns_witness :
  ~ returns (inputController zero_memory (runner zero_node) (mk_time 0 0 0) (Ret tt)
               300 runner_5_running 1 0 0)
  /\ inputController zero_memory (runner zero_node) (mk_time 0 0 0) (Ret tt)
       300 runner_5_running 1 0 0 = Undefined.
Proof.
  split.
  - apply (inputController_stop_never_returns zero_memory (runner zero_node)
             (mk_time 0 0 0) (Ret tt) 300 runner_5_running 1 0 0).
    + vm_compute. discriminate.
    + vm_compute. discriminate.
  - vm_compute. reflexivity.
Defined.

(** * Further properties of the program *)

(** ** The clock counts seconds *)

Lemma incClock_clock_seconds (t : time_type) (TCNT1 : Z) :
  wf_time t -> sec t <= 59 ->
  clock_seconds (incClock t TCNT1) = (clock_seconds t + 1) mod 15360 /\
  sec (incClock t TCNT1) <= 59.
Proof.
  intros (Hm & Hs & _) H59. unfold is_u8 in *. unfold incClock, clock_seconds.
  destruct (Z.ltb_spec (sec t) 59) as [Hlt|Hge]; cbn [min sec].
  - rewrite (u8_id (sec t + 1)) by (unfold is_u8; lia).
    rewrite Z.mod_small by lia. lia.
  - assert (Hsec : sec t = 59) by lia. rewrite Hsec.
    destruct (Z.eq_dec (min t) 255) as [E|E].
    + rewrite E. vm_compute. split; [reflexivity | discriminate].
    + rewrite (u8_id (min t + 1)) by (unfold is_u8; lia).
      rewrite Z.mod_small by lia. lia.
Qed.

Lemma ticks_clock_seconds (samples : list Z) :
  forall t : time_type,
    wf_time t -> sec t <= 59 ->
    clock_seconds (ticks t samples)
      = (clock_seconds t + Z.of_nat (length samples)) mod 15360 /\
    sec (ticks t samples) <= 59.
Proof.
  induction samples as [|x samples IH]; intros t Ht H59.
  - cbn [ticks foldl length]. split; [|exact H59].
    destruct Ht as (Hm & Hs & _). unfold is_u8 in *. unfold clock_seconds.
    rewrite Z.mod_small; lia.
  - destruct (incClock_clock_seconds t x Ht H59) as (Hcs & H59').
    destruct (IH (incClock t x) (incClock_wf t x Ht) H59') as (IH1 & IH2).
    change (ticks t (x :: samples)) with (ticks (incClock t x) samples).
    split; [|exact IH2].
    rewrite IH1, Hcs, Zplus_mod_idemp_l. f_equal. cbn [length]. lia.
Qed.

(** X1. From a clock whose seconds are at most 59, [n] timer interrupts
    advance the time shown, [min * 60 + sec], by [n] modulo 15360: the
    minutes wrap from 255 to 0 without notice. The seconds stay at most
    59. *)
Theorem ticks_count_seconds (samples : list Z) (t : time_type) :
  wf_time t -> sec t <= 59 ->
  clock_seconds (ticks t samples)
    = (clock_seconds t + Z.of_nat (length samples)) mod 15360 /\
  sec (ticks t samples) <= 59.
Proof. apply ticks_clock_seconds. Qed.

(** Sixty interrupts from 255:30 lead to 0:30. *)
Lemma ticks_count_seconds_witness :
  clock_seconds (ticks (mk_time 255 30 0) (replicate 60 7))
    = (clock_seconds (mk_time 255 30 0) + Z.of_nat (length (replicate 60 7))) mod 15360 /\
  sec (ticks (mk_time 255 30 0) (replicate 60 7)) <= 59.
Proof.
  apply (ticks_count_seconds (replicate 60 7) (mk_time 255 30 0)).
  - unfold wf_time, is_u8. simpl. lia.
  - simpl. lia.
Defined.

(** ** Starting and stopping the timer *)

(** A test that holds of the 256 values of a [uint8_t] holds of each. *)
Lemma forall_u8 (P : Z -> bool) :
  forallb P (seqZ 0 256) = true -> forall x, is_u8 x -> P x = true.
Proof.
  intros H x Hx. rewrite forallb_forall in H. apply H.
  apply list_elem_of_In, elem_of_seqZ. unfold is_u8 in Hx. lia.
Qed.

(** X2. On an 8-bit timer control register, [startTimer] sets the two
    clock-select bits (mask 3) and [stopTimer] clears them; both leave the
    six other bits (mask 252) as they are. Stopping after starting is
    stopping, starting after stopping is starting, and when the clock-select
    bits were clear, as [initTimer] leaves them, stopping after starting
    gives the state back. *)
Theorem timer_start_stop (s : state) :
  is_u8 (TCCR1B s) ->
  Z.land (TCCR1B (startTimer s)) 3 = 3 /\
  Z.land (TCCR1B (stopTimer s)) 3 = 0 /\
  Z.land (TCCR1B (startTimer s)) 252 = Z.land (TCCR1B s) 252 /\
  Z.land (TCCR1B (stopTimer s)) 252 = Z.land (TCCR1B s) 252 /\
  stopTimer (startTimer s) = stopTimer s /\
  startTimer (stopTimer s) = startTimer s /\
  (Z.land (TCCR1B s) 3 = 0 -> stopTimer (startTimer s) = s).
Proof.
  destruct s as [c hd h pv cr cur x pa]. cbn [TCCR1B]. intros Hx.
  unfold startTimer, stopTimer, set_TCCR1B. cbn [TCCR1B clock runnerListHead heap
    addRunner_prev clockRunning currentRunner PORTA].
  set (on := fun x => u8 (Z.lor x (Z.lor (Z.shiftl 1 CS10) (Z.shiftl 1 CS11)))).
  set (off := fun x =>
    u8 (Z.land x (Z.lnot (Z.lor (Z.shiftl 1 CS10) (Z.shiftl 1 CS11))))).
  change (Z.land (on x) 3 = 3 /\ Z.land (off x) 3 = 0 /\
          Z.land (on x) 252 = Z.land x 252 /\ Z.land (off x) 252 = Z.land x 252 /\
          mk_state c hd h pv cr cur (off (on x)) pa = mk_state c hd h pv cr cur (off x) pa /\
          mk_state c hd h pv cr cur (on (off x)) pa = mk_state c hd h pv cr cur (on x) pa /\
          (Z.land x 3 = 0 ->
           mk_state c hd h pv cr cur (off (on x)) pa = mk_state c hd h pv cr cur x pa)).
  pose proof (forall_u8 (fun x => Z.land (on x) 3 =? 3) eq_refl x Hx) as H1.
  pose proof (forall_u8 (fun x => Z.land (off x) 3 =? 0) eq_refl x Hx) as H2.
  pose proof (forall_u8 (fun x => Z.land (on x) 252 =? Z.land x 252) eq_refl x Hx) as H3.
  pose proof (forall_u8 (fun x => Z.land (off x) 252 =? Z.land x 252) eq_refl x Hx) as H4.
  pose proof (forall_u8 (fun x => off (on x) =? off x) eq_refl x Hx) as H5.
  pose proof (forall_u8 (fun x => on (off x) =? on x) eq_refl x Hx) as H6.
  pose proof (forall_u8 (fun x => negb (Z.land x 3 =? 0) || (off (on x) =? x))
                eq_refl x Hx) as H7.
  cbv beta in *.
  apply Z.eqb_eq in H1, H2, H3, H4, H5, H6.
  repeat split; try assumption; try (f_equal; assumption).
  intros H0. f_equal. rewrite H0 in H7. cbn in H7. now apply Z.eqb_eq in H7.
Qed.

(** The register as [initTimer] leaves it, 8: started it holds 11, and
    stopped again 8. *)
Lemma timer_start_stop_witness :
  let s := main_init zero_memory in
  Z.land (TCCR1B (startTimer s)) 3 = 3 /\
  Z.land (TCCR1B (stopTimer s)) 3 = 0 /\
  Z.land (TCCR1B (startTimer s)) 252 = Z.land (TCCR1B s) 252 /\
  Z.land (TCCR1B (stopTimer s)) 252 = Z.land (TCCR1B s) 252 /\
  stopTimer (startTimer s) = stopTimer s /\
  startTimer (stopTimer s) = startTimer s /\
  (Z.land (TCCR1B s) 3 = 0 -> stopTimer (startTimer s) = s).
Proof.
  intros s. apply (timer_start_stop s).
  unfold is_u8. change (TCCR1B s) with 8. lia.
Defined.

(** ** One call of [addRunner] *)

Section Controller.

Variable uninit_node : loc -> runner_node.
Variable uninit_runner : runner_type.
Variable uninit_time : time_type.
Variable free_sortingArray : outcome unit.

(** The state after [addRunner] on a well-formed list that is not empty. *)
Lemma addRunner_result (fuel : nat) (s : state) (head : ptr)
    (l : list runner_type) (x r : runner_type) :
  is_list (heap s) head (l ++ [x]) -> (length l < fuel)%nat ->
  exists a nd,
    heap s !! a = Some nd /\ next nd = None /\
    let fresh_node := fresh (dom (heap s)) in
    let h' := <[a := mk_node r (addRunner_prev s) None]>
                (<[fresh_node := uninit_node fresh_node]> (heap s)) in
    fresh_node <> a /\
    addRunner uninit_node fuel s head r
      = Ret (Some a, set_addRunner_prev (Some a) (set_heap h' s)) /\
    is_list h' head (l ++ [r]).
Proof.
  intros Hl Hf.
  destruct (addRunner_last_is_list _ x l fuel head Hl Hf)
    as (a & nd & Hlast & Ha & Hn & Hrepl).
  exists a, nd. split; [exact Ha|]. split; [exact Hn|].
  intros fresh_node h'.
  assert (Hfresh : heap s !! fresh_node = None).
  { apply not_elem_of_dom. apply is_fresh. }
  assert (Hne : fresh_node <> a) by congruence.
  split; [exact Hne|]. split.
  - unfold addRunner. rewrite Hlast. cbn [mbind outcome_bind mret outcome_ret].
    unfold malloc. fold fresh_node. unfold store.
    rewrite lookup_insert_ne, Ha by exact Hne. cbn [mbind outcome_bind].
    rewrite lookup_insert_eq. cbn [mbind outcome_bind]. rewrite insert_insert_eq.
    rewrite lookup_insert_eq. cbn [mbind outcome_bind]. rewrite insert_insert_eq.
    rewrite lookup_insert_eq. cbn [mbind outcome_bind]. rewrite insert_insert_eq.
    reflexivity.
  - apply (Hrepl _ r (addRunner_prev s)).
    + intros b n Hb Hbn. subst h'. rewrite !lookup_insert_ne by congruence. exact Hbn.
    + apply lookup_insert_eq.
Qed.

(** X3. Each call of [addRunner] on a well-formed list that is not empty
    returns the last node of the list, which now holds the runner, and
    records it in the [static] variable [prev]. The heap has grown by one
    node, the one obtained from [malloc], still uninitialised; the list has
    the length it had, so that node is not part of it and no pointer to it
    is kept. *)
Theorem addRunner_leaks_a_node (fuel : nat) (s : state) (head : ptr)
    (l : list runner_type) (x r : runner_type) :
  is_list (heap s) head (l ++ [x]) -> (length l < fuel)%nat ->
  exists current s' nd,
    addRunner uninit_node fuel s head r = Ret (Some current, s') /\
    heap s' !! current = Some nd /\ runner nd = r /\ next nd = None /\
    addRunner_prev s' = Some current /\
    is_list (heap s') head (l ++ [r]) /\
    size (heap s') = S (size (heap s)) /\
    heap s !! fresh (dom (heap s)) = None /\
    heap s' !! fresh (dom (heap s)) = Some (uninit_node (fresh (dom (heap s)))).
Proof.
  intros Hl Hf.
  destruct (addRunner_result fuel s head l x r Hl Hf)
    as (a & nd & Ha & Hn & Hne & Hadd & Hl').
  set (fresh_node := fresh (dom (heap s))) in *.
  assert (Hfresh : heap s !! fresh_node = None).
  { apply not_elem_of_dom. apply is_fresh. }
  eexists a, _, (mk_node r (addRunner_prev s) None).
  split; [exact Hadd|]. cbn [heap set_heap set_addRunner_prev addRunner_prev].
  split; [apply lookup_insert_eq|]. split; [reflexivity|]. split; [reflexivity|].
  split; [reflexivity|]. split; [exact Hl'|]. split; [|split; [exact Hfresh|]].
  - rewrite map_size_insert_Some.
    + now apply map_size_insert_None.
    + rewrite lookup_insert_ne by exact Hne. eauto.
  - rewrite lookup_insert_ne by congruence. apply lookup_insert_eq.
Qed.

End Controller.

(** On the registry that [main] sets up, the first runner: the heap holds
    two nodes afterwards, the list one. *)
Lemma addRunner_leaks_a_node_witness :
  let s := main_init zero_memory in
  exists current s' nd,
    addRunner zero_memory 1 s (runnerListHead s) runner_5 = Ret (Some current, s') /\
    heap s' !! current = Some nd /\ runner nd = runner_5 /\ next nd = None /\
    addRunner_prev s' = Some current /\
    is_list (heap s') (runnerListHead s) ([] ++ [runner_5]) /\
    size (heap s') = S (size (heap s)) /\
    heap s !! fresh (dom (heap s)) = None /\
    heap s' !! fresh (dom (heap s)) = Some (zero_memory (fresh (dom (heap s)))).
Proof.
  intros s.
  apply (addRunner_leaks_a_node zero_memory 1 s (runnerListHead s) []
           (runner zero_node) runner_5).
  - concrete_list.
  - simpl. lia.
Defined.

(** ** Calls of the controller *)

Section Polling.

Variable uninit_node : loc -> runner_node.
Variable uninit_runner : runner_type.
Variable uninit_time : time_type.
Variable free_sortingArray : outcome unit.

(** Timer interrupts change the clock and nothing else. *)
Lemma interrupts_change_the_clock (samples : list Z) :
  forall s : state,
    foldl ISR_TIMER1_COMPA s samples = set_clock (ticks (clock s) samples) s.
Proof.
  induction samples as [|x samples IH]; intros s.
  - now destruct s.
  - cbn [foldl]. rewrite IH. reflexivity.
Qed.

(** The runner signal while the clock is running and no runner is in
    flight. *)
Lemma inputController_runner_start (fuel : nat) (s : state) (PIND PINE TCNT1 : Z)
    (l : list runner_type) (x : runner_type) :
  Z.land PIND (Z.shiftl 1 4) <> 0 ->
  clockRunning s <> 0 ->
  running (currentRunner s) = 0 ->
  is_list (heap s) (runnerListHead s) (l ++ [x]) -> (length l < fuel)%nat ->
  exists s',
    inputController_runner uninit_node fuel s PIND PINE TCNT1 = Ret s' /\
    currentRunner s' = start_stamp s PINE TCNT1 /\
    is_list (heap s') (runnerListHead s') (l ++ [start_stamp s PINE TCNT1]) /\
    clock s' = clock s /\ clockRunning s' = clockRunning s /\
    runnerListHead s' = runnerListHead s /\
    TCCR1B s' = TCCR1B s /\ PORTA s' = PORTA s.
Proof.
  intros H4 Hc Hr Hl Hf. unfold inputController_runner.
  destruct (Z.eqb_spec (Z.land PIND (Z.shiftl 1 4)) 0) as [E|_]; [contradiction|].
  destruct (Z.eqb_spec (clockRunning s) 0) as [E|_]; [contradiction|].
  rewrite Hr. cbn [negb andb Z.eqb].
  cbn [currentRunner set_currentRunner clock runnerListHead id running time min sec hSec].
  fold (start_stamp s PINE TCNT1).
  set (s1 := set_currentRunner (start_stamp s PINE TCNT1) s).
  destruct (addRunner_result uninit_node fuel s1 (runnerListHead s) l x
              (start_stamp s PINE TCNT1) Hl Hf)
    as (a & nd & _ & _ & _ & Hadd & Hl').
  match goal with |- context [addRunner _ _ ?st _ _] => change st with s1 end.
  rewrite Hadd. cbn [mbind outcome_bind mret outcome_ret].
  eexists. split; [reflexivity|]. repeat split. exact Hl'.
Qed.

(** The runner signal while a runner is in flight, without the start/stop
    signal. *)
Lemma inputController_finish (fuel : nat) (s : state) (PIND PINE TCNT1 : Z) :
  Z.land PIND 1 = 0 ->
  Z.land PIND (Z.shiftl 1 4) <> 0 ->
  clockRunning s <> 0 ->
  running (currentRunner s) <> 0 ->
  inputController uninit_node uninit_runner uninit_time free_sortingArray
    fuel s PIND PINE TCNT1
  = Ret (set_currentRunner
           (mk_runner (id (currentRunner s)) 0
              (mk_time (u8 (min (clock s) - min (time (currentRunner s))))
                       (u8 (sec (clock s) - sec (time (currentRunner s))))
                       (u8 (TCNT1 - hSec (time (currentRunner s)))))) s).
Proof.
  intros H0 H4 Hc Hr. unfold inputController, inputController_runner.
  rewrite H0. cbn [Z.eqb negb]. decide_tests. reflexivity.
Qed.

(** X4. Without the start/stop signal, a call of the controller changes
    nothing when the runner signal is absent, and nothing either when the
    runner signal is present but the clock is not running: runner events
    outside a race are dropped. *)
Theorem inputController_drops_runner_signal (fuel : nat) (s : state)
    (PIND PINE TCNT1 : Z) :
  Z.land PIND 1 = 0 ->
  Z.land PIND (Z.shiftl 1 4) = 0 \/ clockRunning s = 0 ->
  inputController uninit_node uninit_runner uninit_time free_sortingArray
    fuel s PIND PINE TCNT1 = Ret s.
Proof.
  intros H0 [H4 | Hc]; unfold inputController, inputController_runner; rewrite H0.
  - rewrite H4. reflexivity.
  - rewrite Hc. cbn [Z.eqb negb]. now rewrite andb_false_r.
Qed.

(** The state after the start of a runner. *)
Lemma inputController_start_result (fuel : nat) (s : state) (PIND PINE TCNT1 : Z)
    (l : list runner_type) (x : runner_type) :
  Z.land PIND (Z.shiftl 1 4) <> 0 ->
  running (currentRunner s) = 0 ->
  (Z.land PIND 1 = 0 /\ clockRunning s <> 0) \/
  (Z.land PIND 1 <> 0 /\ clockRunning s = 0) ->
  is_list (heap s) (runnerListHead s) (l ++ [x]) -> (length l < fuel)%nat ->
  exists s',
    inputController uninit_node uninit_runner uninit_time free_sortingArray
      fuel s PIND PINE TCNT1 = Ret s' /\
    currentRunner s' = start_stamp s PINE TCNT1 /\
    snapshot (S (length (l ++ [x]))) (heap s') (runnerListHead s')
      = Ret (l ++ [start_stamp s PINE TCNT1]) /\
    clock s' = clock s /\ clockRunning s' <> 0.
Proof.
  intros H4 Hr Hsig Hl Hf. unfold inputController.
  destruct Hsig as [[H0 Hc] | [H0 Hc]].
  - rewrite H0. cbn [Z.eqb negb].
    destruct (inputController_runner_start fuel s PIND PINE TCNT1 l x H4 Hc Hr Hl Hf)
      as (s' & Hrun & Hcur & Hl' & Hck & Hcr & _).
    exists s'. split; [exact Hrun|]. split; [exact Hcur|]. split.
    + apply snapshot_is_list; [exact Hl' | rewrite !length_app; simpl; lia].
    + split; [exact Hck | congruence].
  - destruct (Z.eqb_spec (Z.land PIND 1) 0) as [E|_]; [contradiction|].
    rewrite Hc. cbn [Z.eqb negb].
    set (s0 := set_clockRunning 1 (startTimer s)).
    destruct (inputController_runner_start fuel s0 PIND PINE TCNT1 l x H4
                ltac:(discriminate) Hr Hl Hf)
      as (s' & Hrun & Hcur & Hl' & Hck & Hcr & _).
    exists s'. split; [exact Hrun|]. split; [exact Hcur|]. split.
    + apply snapshot_is_list; [exact Hl' | rewrite !length_app; simpl; lia].
    + split; [exact Hck|]. rewrite Hcr. discriminate.
Qed.

(** X5. The runner signal while no runner is in flight, with the clock
    running or started by the same call: the controller returns, the runner
    in flight is the id on the id port, marked running and stamped with the
    minutes and seconds of the clock and the counter register; the same
    record has replaced the last entry of the registry; the clock is as it
    was and counts as running. *)
Theorem inputController_starts_runner (fuel : nat) (s : state) (PIND PINE TCNT1 : Z)
    (l : list runner_type) (x : runner_type) :
  Z.land PIND (Z.shiftl 1 4) <> 0 ->
  running (currentRunner s) = 0 ->
  (Z.land PIND 1 = 0 /\ clockRunning s <> 0) \/
  (Z.land PIND 1 <> 0 /\ clockRunning s = 0) ->
  is_list (heap s) (runnerListHead s) (l ++ [x]) -> (length l < fuel)%nat ->
  exists s',
    inputController uninit_node uninit_runner uninit_time free_sortingArray
      fuel s PIND PINE TCNT1 = Ret s' /\
    currentRunner s' = start_stamp s PINE TCNT1 /\
    snapshot (S (length (l ++ [x]))) (heap s') (runnerListHead s')
      = Ret (l ++ [start_stamp s PINE TCNT1]) /\
    clock s' = clock s /\ clockRunning s' <> 0.
Proof. apply inputController_start_result. Qed.

(** The key of a field-wise difference of two clock readings is the
    difference of the times they show, modulo 256. *)
Lemma key_of_fieldwise_difference (i : Z) (c1 c0 : time_type) (h : Z) :
  getTimeInSec
    (mk_runner i 0 (mk_time (u8 (min c1 - min c0)) (u8 (sec c1 - sec c0)) h))
  = (clock_seconds c1 - clock_seconds c0) mod 256.
Proof.
  unfold getTimeInSec, clock_seconds, u8. cbn [time min sec].
  rewrite Zplus_mod, Zmult_mod_idemp_l, Zmod_mod, <- Zplus_mod.
  f_equal. lia.
Qed.

(** X6. A runner stamped at the present time of the clock finishes after
    [n] timer interrupts: the controller returns, and the key of the lap it
    records, as ranking and best-time reporting compute it, is [n] modulo
    256. The fields of the lap are subtracted without borrow and the
    minutes of the clock may have wrapped; the key is not affected. *)
Theorem lap_key_counts_interrupts (fuel : nat) (s : state) (samples : list Z)
    (PIND PINE TCNT1 : Z) :
  wf_time (clock s) -> sec (clock s) <= 59 ->
  running (currentRunner s) <> 0 ->
  min (time (currentRunner s)) = min (clock s) ->
  sec (time (currentRunner s)) = sec (clock s) ->
  clockRunning s <> 0 ->
  Z.land PIND 1 = 0 -> Z.land PIND (Z.shiftl 1 4) <> 0 ->
  exists s',
    inputController uninit_node uninit_runner uninit_time free_sortingArray
      fuel (foldl ISR_TIMER1_COMPA s samples) PIND PINE TCNT1 = Ret s' /\
    running (currentRunner s') = 0 /\
    getTimeInSec (currentRunner s') = Z.of_nat (length samples) mod 256.
Proof.
  intros Hwf H59 Hr Hm Hs Hc H0 H4.
  rewrite interrupts_change_the_clock.
  rewrite inputController_finish by assumption.
  eexists. split; [reflexivity|]. split; [reflexivity|].
  cbn [currentRunner set_currentRunner set_clock clock].
  rewrite (key_of_fieldwise_difference _ (ticks (clock s) samples)
             (time (currentRunner s))).
  destruct (ticks_clock_seconds samples (clock s) Hwf H59) as (Hcs & _).
  rewrite Hcs.
  assert (Hstart : clock_seconds (time (currentRunner s)) = clock_seconds (clock s))
    by (unfold clock_seconds; now rewrite Hm, Hs).
  rewrite Hstart.
  set (c := clock_seconds (clock s)). set (n := Z.of_nat (length samples)).
  rewrite (Z.mod_eq (c + n) 15360) by lia.
  replace (c + n - 15360 * ((c + n) / 15360) - c)
    with (n + (- 60 * ((c + n) / 15360)) * 256) by lia.
  apply Z_mod_plus_full.
Qed.

(** X7. A runner starts and, after any number of timer interrupts,
    finishes. Both calls of the controller return and the runner in flight
    is marked finished, but the registry still holds the record written at
    the start, marked running and with the start time: the lap has not
    reached the registry, and its finished runners are those it had. *)
Theorem finish_does_not_reach_registry (fuel : nat) (s : state)
    (PIND PINE TCNT1 : Z) (samples : list Z) (PIND' PINE' TCNT1' : Z)
    (l : list runner_type) (x : runner_type) :
  Z.land PIND (Z.shiftl 1 4) <> 0 ->
  running (currentRunner s) = 0 ->
  (Z.land PIND 1 = 0 /\ clockRunning s <> 0) \/
  (Z.land PIND 1 <> 0 /\ clockRunning s = 0) ->
  is_list (heap s) (runnerListHead s) (l ++ [x]) -> (length l < fuel)%nat ->
  Z.land PIND' 1 = 0 -> Z.land PIND' (Z.shiftl 1 4) <> 0 ->
  exists s1 s2,
    inputController uninit_node uninit_runner uninit_time free_sortingArray
      fuel s PIND PINE TCNT1 = Ret s1 /\
    inputController uninit_node uninit_runner uninit_time free_sortingArray
      fuel (foldl ISR_TIMER1_COMPA s1 samples) PIND' PINE' TCNT1' = Ret s2 /\
    running (currentRunner s2) = 0 /\
    snapshot (S (length (l ++ [x]))) (heap s2) (runnerListHead s2)
      = Ret (l ++ [start_stamp s PINE TCNT1]) /\
    running (start_stamp s PINE TCNT1) = 1 /\
    finishers (l ++ [start_stamp s PINE TCNT1]) = finishers l.
Proof.
  intros H4 Hr Hsig Hl Hf H0' H4'.
  destruct (inputController_start_result fuel s PIND PINE TCNT1 l x H4 Hr Hsig Hl Hf)
    as (s1 & Hstart & Hcur & Hsnap & _ & Hcr).
  exists s1. eexists. split; [exact Hstart|].
  rewrite interrupts_change_the_clock.
  rewrite inputController_finish;
    [| assumption | assumption | exact Hcr
     | cbn [currentRunner set_clock]; rewrite Hcur; discriminate].
  split; [reflexivity|]. split; [reflexivity|]. split; [exact Hsnap|].
  split; [reflexivity|].
  unfold finishers. rewrite filter_app. cbn [filter list_filter].
  rewrite decide_False by (unfold finished; simpl; discriminate).
  apply app_nil_r.
Qed.

End Polling.

(** Before the race has started, the runner signal with id 5 on the id
    port: nothing changes. *)
Lemma inputController_drops_runner_signal_witness :
  inputController zero_memory (runner zero_node) (mk_time 0 0 0) (Ret tt)
    1 (main_init zero_memory) 16 5 0 = Ret (main_init zero_memory).
Proof.
  apply (inputController_drops_runner_signal zero_memory (runner zero_node)
           (mk_time 0 0 0) (Ret tt) 1 (main_init zero_memory) 16 5 0).
  - reflexivity.
  - right. reflexivity.
Defined.

(** Ten interrupts into the race, runner 5 starts with the counter at 0. *)
Lemma inputController_starts_runner_witness :
  let s := foldl ISR_TIMER1_COMPA race_started (replicate 10 0) in
  exists s',
    inputController zero_memory (runner zero_node) (mk_time 0 0 0) (Ret tt)
      1 s 16 5 0 = Ret s' /\
    currentRunner s' = start_stamp s 5 0 /\
    snapshot (S (length ([] ++ [runner zero_node]))) (heap s') (runnerListHead s')
      = Ret ([] ++ [start_stamp s 5 0]) /\
    clock s' = clock s /\ clockRunning s' <> 0.
Proof.
  intros s.
  apply (inputController_starts_runner zero_memory (runner zero_node)
           (mk_time 0 0 0) (Ret tt) 1 s 16 5 0 [] (runner zero_node)).
  - vm_compute. discriminate.
  - reflexivity.
  - left. split; [reflexivity | vm_compute; discriminate].
  - concrete_list.
  - simpl. lia.
Defined.

(** Runner 5 started at 0:10 and finishes 55 interrupts later, at 1:05: the
    lap recorded is 1 minute and 251 seconds, and its key is 55. *)
Lemma lap_key_counts_interrupts_witness :
  exists s',
    inputController zero_memory (runner zero_node) (mk_time 0 0 0) (Ret tt)
      1 (foldl ISR_TIMER1_COMPA runner_5_running (replicate 55 0)) 16 5 0 = Ret s' /\
    running (currentRunner s') = 0 /\
    getTimeInSec (currentRunner s') = Z.of_nat (length (replicate 55 0)) mod 256.
Proof.
  apply (lap_key_counts_interrupts zero_memory (runner zero_node)
           (mk_time 0 0 0) (Ret tt) 1 runner_5_running (replicate 55 0) 16 5 0).
  - unfold wf_time, is_u8. simpl. lia.
  - simpl. lia.
  - vm_compute. discriminate.
  - reflexivity.
  - reflexivity.
  - vm_compute. discriminate.
  - reflexivity.
  - vm_compute. discriminate.
Defined.

(** Runner 5 starts ten interrupts into the race and finishes 35
    interrupts later. *)
Lemma finish_does_not_reach_registry_witness :
  let s := foldl ISR_TIMER1_COMPA race_started (replicate 10 0) in
  exists s1 s2,
    inputController zero_memory (runner zero_node) (mk_time 0 0 0) (Ret tt)
      1 s 16 5 0 = Ret s1 /\
    inputController zero_memory (runner zero_node) (mk_time 0 0 0) (Ret tt)
      1 (foldl ISR_TIMER1_COMPA s1 (replicate 35 0)) 16 0 0 = Ret s2 /\
    running (currentRunner s2) = 0 /\
    snapshot (S (length ([] ++ [runner zero_node]))) (heap s2) (runnerListHead s2)
      = Ret ([] ++ [start_stamp s 5 0]) /\
    running (start_stamp s 5 0) = 1 /\
    finishers ([] ++ [start_stamp s 5 0]) = finishers [].
Proof.
  intros s.
  apply (finish_does_not_reach_registry zero_memory (runner zero_node)
           (mk_time 0 0 0) (Ret tt) 1 s 16 5 0 (replicate 35 0) 16 0 0
           [] (runner zero_node)).
  - vm_compute. discriminate.
  - reflexivity.
  - left. split; [reflexivity | vm_compute; discriminate].
  - concrete_list.
  - simpl. lia.
  - reflexivity.
  - vm_compute. discriminate.
Defined.

(** ** Best-time reporting *)

(** On a registry whose first entry is still running, the loop of
    [outputBest] ends at once. *)
Lemma outputBest_running_head_value (fuel : nat) (s : state) (r : runner_type)
    (l : list runner_type) :
  is_list (heap s) (runnerListHead s) (r :: l) -> running r <> 0 -> (0 < fuel)%nat ->
  outputBest fuel s = Ret (set_PORTA (id r) s).
Proof.
  intros (a & nd & Hp & Ha & Hrn & _) Hr Hf. destruct fuel as [|fuel]; [lia|].
  unfold outputBest. rewrite Hp. cbn [load outputBest_loop]. rewrite Ha.
  cbn [mbind outcome_bind]. rewrite Hrn.
  destruct (Z.eqb_spec (running r) 0) as [E|_]; [contradiction|]. reflexivity.
Qed.

(** X8. On every well-formed registry whose first entry is still running,
    [outputBest] returns and writes to the output port the id of that
    running runner, whatever follows in the registry; nothing but the port
    changes. *)
Theorem outputBest_reports_running_head (fuel : nat) (s : state) (r : runner_type)
    (l : list runner_type) :
  is_list (heap s) (runnerListHead s) (r :: l) -> running r <> 0 -> (0 < fuel)%nat ->
  outputBest fuel s = Ret (set_PORTA (id r) s).
Proof. apply outputBest_running_head_value. Qed.

(** A running runner with id 7 before a finished runner with id 3. *)
Lemma outputBest_reports_running_head_witness :
  let l := [mk_runner 7 1 (mk_time 0 5 0); mk_runner 3 0 (mk_time 0 30 0)] in
  outputBest 1 (registry_state l) = Ret (set_PORTA 7 (registry_state l)).
Proof.
  intros l.
  apply (outputBest_reports_running_head 1 (registry_state l)
           (mk_runner 7 1 (mk_time 0 5 0)) [mk_runner 3 0 (mk_time 0 30 0)]).
  - concrete_list.
  - discriminate.
  - lia.
Defined.

(** The scan keeps the best it started with when no key of the finished
    prefix is smaller; otherwise it ends on the first runner of the prefix
    whose key is the least. *)
Lemma best_scan_first_minimal (l : list runner_type) :
  forall (b t : Z),
    let '(b', t') := best_scan l b t in
    ((b', t') = (b, t) /\ forall y, y ∈ finished_prefix l -> t <= getTimeInSec y) \/
    (exists l1 x l2,
        finished_prefix l = l1 ++ x :: l2 /\ id x = b' /\ getTimeInSec x = t' /\
        t' < t /\
        (forall y, y ∈ l1 -> t' < getTimeInSec y) /\
        (forall y, y ∈ l2 -> t' <= getTimeInSec y)).
Proof.
  induction l as [|r l IH]; intros b t; simpl.
  - left. split; [reflexivity|]. intros y Hy. inversion Hy.
  - destruct (running r =? 0).
    + destruct (Z.gtb_spec t (getTimeInSec r)) as [Hgt|Hle].
      * specialize (IH (id r) (getTimeInSec r)).
        destruct (best_scan l (id r) (getTimeInSec r)) as [b' t'].
        right. destruct IH as [[Heq Hall] | (l1 & x & l2 & Hp & Hid & Hk & Hlt & H1 & H2)].
        -- inversion Heq; subst. exists [], r, (finished_prefix l).
           repeat split; auto. intros y Hy. inversion Hy.
        -- exists (r :: l1), x, l2. rewrite Hp.
           repeat split; auto; try lia.
           intros y [-> | Hy]%elem_of_cons; [lia | now apply H1].
      * specialize (IH b t).
        destruct (best_scan l b t) as [b' t'].
        destruct IH as [[Heq Hall] | (l1 & x & l2 & Hp & Hid & Hk & Hlt & H1 & H2)].
        -- left. split; [exact Heq|].
           intros y [-> | Hy]%elem_of_cons; [lia | now apply Hall].
        -- right. exists (r :: l1), x, l2. rewrite Hp.
           repeat split; auto.
           intros y [-> | Hy]%elem_of_cons; [lia | now apply H1].
    + left. split; [reflexivity|]. intros y Hy. inversion Hy.
Qed.

(** X9. On a well-formed registry whose first entry is finished,
    [outputBest] reports the first of the finished entries before the first
    running entry that have the least key: every entry before the reported
    one has a strictly larger key, every entry after it a key at least as
    large. Among equal keys the earliest arrival wins. *)
Theorem outputBest_reports_first_least (fuel : nat) (s : state) (r : runner_type)
    (l : list runner_type) :
  is_list (heap s) (runnerListHead s) (r :: l) -> (length (r :: l) < fuel)%nat ->
  running r = 0 ->
  exists l1 b l2,
    finished_prefix (r :: l) = l1 ++ b :: l2 /\
    outputBest fuel s = Ret (set_PORTA (id b) s) /\
    (forall y, y ∈ l1 -> getTimeInSec b < getTimeInSec y) /\
    (forall y, y ∈ l2 -> getTimeInSec b <= getTimeInSec y).
Proof.
  intros Hl Hf Hr. rewrite (outputBest_value fuel s r l Hl Hf).
  cbn [best_scan finished_prefix]. rewrite Hr. cbn [Z.eqb]. rewrite gtb_irrefl.
  pose proof (best_scan_first_minimal l (id r) (getTimeInSec r)) as H.
  destruct (best_scan l (id r) (getTimeInSec r)) as [b' t'].
  destruct H as [[Heq Hall] | (l1 & x & l2 & Hp & Hid & Hk & Hlt & H1 & H2)].
  - inversion Heq; subst. exists [], r, (finished_prefix l).
    repeat split; auto. intros y Hy. inversion Hy.
  - exists (r :: l1), x, l2. rewrite Hp. cbn [fst]. rewrite Hid.
    repeat split; auto.
    + intros y [-> | Hy]%elem_of_cons; rewrite Hk; [lia | now apply H1].
    + intros y Hy. rewrite Hk. now apply H2.
Qed.

(** Laps 0:35, 0:20, 0:20 and 0:50: runner 2 is reported, not runner 3. *)
Lemma outputBest_reports_first_least_witness :
  let l := [mk_runner 1 0 (mk_time 0 35 0); mk_runner 2 0 (mk_time 0 20 0);
            mk_runner 3 0 (mk_time 0 20 0); mk_runner 4 0 (mk_time 0 50 0)] in
  (exists l1 b l2,
    finished_prefix l = l1 ++ b :: l2 /\
    outputBest 5 (registry_state l) = Ret (set_PORTA (id b) (registry_state l)) /\
    (forall y, y ∈ l1 -> getTimeInSec b < getTimeInSec y) /\
    (forall y, y ∈ l2 -> getTimeInSec b <= getTimeInSec y)) /\
  outputBest 5 (registry_state l) = Ret (set_PORTA 2 (registry_state l)).
Proof.
  intros l. split; [|reflexivity].
  apply (outputBest_reports_first_least 5 (registry_state l)
           (mk_runner 1 0 (mk_time 0 35 0))
           [mk_runner 2 0 (mk_time 0 20 0); mk_runner 3 0 (mk_time 0 20 0);
            mk_runner 4 0 (mk_time 0 50 0)]).
  - concrete_list.
  - simpl. lia.
  - reflexivity.
Defined.

(** ** A round of the loop of [main] *)

Section Run.

Variable uninit_node : loc -> runner_node.
Variable uninit_runner : runner_type.
Variable uninit_time : time_type.
Variable free_sortingArray : outcome unit.

(** X10. A round of the loop of [main] in which a runner starts, on a
    registry of one node: the round returns, the runner is in flight, and
    the output port already shows his id, as if he held the best time. *)
Theorem main_iteration_shows_started_runner (fuel : nat) (s : state)
    (PIND PINE TCNT1 : Z) (x : runner_type) :
  Z.land PIND (Z.shiftl 1 4) <> 0 ->
  running (currentRunner s) = 0 ->
  (Z.land PIND 1 = 0 /\ clockRunning s <> 0) \/
  (Z.land PIND 1 <> 0 /\ clockRunning s = 0) ->
  is_list (heap s) (runnerListHead s) [x] -> (0 < fuel)%nat ->
  exists s',
    main_iteration uninit_node uninit_runner uninit_time free_sortingArray
      fuel s PIND PINE TCNT1 = Ret s' /\
    currentRunner s' = start_stamp s PINE TCNT1 /\
    running (currentRunner s') = 1 /\
    PORTA s' = u8 PINE.
Proof.
  intros H4 Hr Hsig Hl Hf. unfold main_iteration, inputController.
  assert (Hstart : forall s0 : state,
             clockRunning s0 <> 0 -> running (currentRunner s0) = 0 ->
             is_list (heap s0) (runnerListHead s0) ([] ++ [x]) ->
             clock s0 = clock s ->
             exists s',
               (inputController_runner uninit_node fuel s0 PIND PINE TCNT1
                  ≫= outputBest fuel) = Ret s' /\
               currentRunner s' = start_stamp s PINE TCNT1 /\
               running (currentRunner s') = 1 /\ PORTA s' = u8 PINE).
  { intros s0 Hc0 Hr0 Hl0 Hck.
    destruct (inputController_runner_start uninit_node fuel s0 PIND PINE TCNT1 []
                x H4 Hc0 Hr0 Hl0 ltac:(simpl; lia))
      as (s1 & Hrun & Hcur & Hl1 & _).
    rewrite Hrun. cbn [mbind outcome_bind].
    rewrite (outputBest_running_head_value fuel s1 (start_stamp s0 PINE TCNT1) [])
      by (try exact Hl1; try exact Hf; discriminate).
    eexists. split; [reflexivity|].
    cbn [currentRunner set_PORTA PORTA]. rewrite Hcur.
    unfold start_stamp. rewrite Hck. repeat split. }
  destruct Hsig as [[H0 Hc] | [H0 Hc]].
  - rewrite H0. cbn [Z.eqb negb]. apply Hstart; auto.
  - destruct (Z.eqb_spec (Z.land PIND 1) 0) as [E|_]; [contradiction|].
    rewrite Hc. cbn [Z.eqb negb]. apply Hstart; auto; discriminate.
Qed.

(** [outputBest] changes nothing but the output port. *)
Lemma outputBest_frame (fuel : nat) (s s' : state) :
  outputBest fuel s = Ret s' -> exists v, s' = set_PORTA v s.
Proof.
  unfold outputBest. intros H.
  destruct (runnerListHead s) as [a|].
  - destruct (load (heap s) (Some a)) as [[a' nd]| |]; cbn [mbind outcome_bind] in H;
      try discriminate.
    destruct (outputBest_loop fuel (heap s) (Some a) _ _) as [[b t]| |];
      cbn [mbind outcome_bind mret outcome_ret] in H; try discriminate.
    injection H as <-. eauto.
  - injection H as <-. exists (PORTA s). now destruct s.
Qed.

(** The part of the controller that handles the runner signal keeps the
    invariant of the run. *)
Lemma inputController_runner_invariant (fuel : nat) (s s' : state)
    (PIND PINE TCNT1 : Z) :
  run_invariant uninit_node s ->
  inputController_runner uninit_node fuel s PIND PINE TCNT1 = Ret s' ->
  run_invariant uninit_node s'.
Proof.
  intros ((x & Hx & Horigin) & Hflight & Hwf & H59) H.
  destruct (Z.eqb_spec (Z.land PIND (Z.shiftl 1 4)) 0) as [E4|E4].
  { unfold inputController_runner in H. rewrite E4 in H. cbn in H.
    injection H as <-. unfold run_invariant. eauto 10. }
  destruct (Z.eqb_spec (clockRunning s) 0) as [Ec|Ec].
  { unfold inputController_runner in H. rewrite Ec in H. cbn [Z.eqb negb] in H.
    rewrite andb_false_r in H. injection H as <-. unfold run_invariant. eauto 10. }
  destruct (Z.eqb_spec (running (currentRunner s)) 0) as [Er|Er].
  - destruct fuel as [|fuel].
    { unfold inputController_runner in H.
      destruct (negb (Z.land PIND (Z.shiftl 1 4) =? 0) && negb (clockRunning s =? 0));
        [|injection H as <-; unfold run_invariant; eauto 10].
      rewrite Er in H. cbn in H. discriminate. }
    destruct (inputController_runner_start uninit_node (S fuel) s PIND PINE TCNT1 []
                x E4 Ec Er Hx ltac:(simpl; lia))
      as (s1 & Hrun & Hcur & Hl1 & Hck & _).
    rewrite Hrun in H. injection H as <-.
    split; [exists (start_stamp s PINE TCNT1); split; [exact Hl1 | now right]|].
    split; [intros _; rewrite Hcur; exact Hl1|].
    rewrite Hck. split; assumption.
  - unfold inputController_runner in H.
    destruct (Z.eqb_spec (Z.land PIND (Z.shiftl 1 4)) 0) as [|_]; [contradiction|].
    destruct (Z.eqb_spec (clockRunning s) 0) as [|_]; [contradiction|].
    destruct (Z.eqb_spec (running (currentRunner s)) 0) as [|_]; [contradiction|].
    cbn [negb andb] in H. injection H as <-.
    cbn [heap runnerListHead currentRunner clock set_currentRunner running].
    split; [eauto|]. split; [intros Hne; now contradiction Hne|]. split; assumption.
Qed.

(** The invariant holds throughout a run that starts with [NULL] in the
    [next] field of the node that [main] obtains. *)
Lemma reachable_run_invariant (s : state) :
  next (uninit_node (fresh (dom (∅ : gmap loc runner_node)))) = None ->
  reachable uninit_node uninit_runner uninit_time free_sortingArray s ->
  run_invariant uninit_node s.
Proof.
  intros Hnull Hreach. induction Hreach as
    [ | s TCNT1 _ IH | s s' fuel PIND PINE TCNT1 _ IH Hin | s s' fuel _ IH Hout ].
  - split; [|split; [|split]].
    + eexists. split; [apply (main_init_registry uninit_node Hnull) | now left].
    + unfold main_init, malloc. cbn [currentRunner running]. intros H. now contradiction H.
    + unfold main_init, malloc, wf_time, is_u8. cbn [clock min sec hSec]. lia.
    + unfold main_init, malloc. cbn [clock sec]. lia.
  - destruct IH as (Hx & Hflight & Hwf & H59).
    unfold ISR_TIMER1_COMPA.
    split; [exact Hx|]. split; [exact Hflight|].
    cbn [clock set_clock]. split; [now apply incClock_wf|].
    now apply incClock_clock_seconds.
  - unfold inputController in Hin.
    destruct (Z.eqb_spec (Z.land PIND 1) 0) as [E0|E0]; cbn [negb] in Hin;
      [now apply (inputController_runner_invariant fuel s s' PIND PINE TCNT1)|].
    destruct (Z.eqb_spec (clockRunning s) 0) as [Ec|Ec]; cbn [negb] in Hin.
    + apply (inputController_runner_invariant fuel
               (set_clockRunning 1 (startTimer s)) s' PIND PINE TCNT1); [|exact Hin].
      destruct IH as (Hx & Hflight & Hwf & H59). unfold run_invariant. auto.
    + exfalso.
      destruct (averageLapTime uninit_time fuel _) as [averageTime| |];
        cbn [mbind outcome_bind] in Hin; try discriminate.
      match type of Hin with
      | context [sortedByTime ?u ?r ?fr ?f ?s0 ?p] =>
          destruct (sortedByTime u r fr f s0 p) as [[sortedListHead s1]| |] eqn:Hsort
      end; cbn [mbind outcome_bind] in Hin; try discriminate.
      eapply sortedByTime_no_result. eexists. exact Hsort.
  - destruct (outputBest_frame fuel s s' Hout) as (v & ->).
    destruct IH as (Hx & Hflight & Hwf & H59). unfold run_invariant. auto.
Qed.

(** X11. In every state of a run of the program that starts with [NULL] in
    the [next] field of the node [main] obtains from [malloc], the registry
    is a well-formed list of exactly one node, whatever the number of
    runners that have started; the record in it is the initial content of
    that node or is marked running, and is the record of the runner in
    flight while there is one; the seconds of the clock are at most 59. *)
Theorem run_keeps_one_node (s : state) :
  next (uninit_node (fresh (dom (∅ : gmap loc runner_node)))) = None ->
  reachable uninit_node uninit_runner uninit_time free_sortingArray s ->
  run_invariant uninit_node s.
Proof. apply reachable_run_invariant. Qed.

(** X12. In every state of such a run, [averageLapTime] returns, and what
    it returns is the uninitialised content of its local variable: no run
    of the program brings two finished runners into the registry, so the
    average is never computed. *)
Theorem run_never_averages (fuel : nat) (s : state) :
  next (uninit_node (fresh (dom (∅ : gmap loc runner_node)))) = None ->
  reachable uninit_node uninit_runner uninit_time free_sortingArray s ->
  (1 < fuel)%nat ->
  averageLapTime uninit_time fuel s = Ret uninit_time.
Proof.
  intros Hnull Hreach Hf.
  destruct (reachable_run_invariant s Hnull Hreach) as ((x & Hx & _) & _).
  rewrite (averageLapTime_value uninit_time fuel s [x] Hx) by (simpl; lia).
  cbv zeta.
  assert (Hn : (length (finishers [x]) <= 1)%nat).
  { rewrite finishers_cons. destruct (running x =? 0); simpl; lia. }
  rewrite u8_id by (unfold is_u8; lia).
  destruct (Z.gtb_spec (Z.of_nat (length (finishers [x]))) 1); [lia | reflexivity].
Qed.

(** Interrupts and calls of the controller extend a run. *)
Lemma reachable_interrupts (samples : list Z) :
  forall s : state,
    reachable uninit_node uninit_runner uninit_time free_sortingArray s ->
    reachable uninit_node uninit_runner uninit_time free_sortingArray
      (foldl ISR_TIMER1_COMPA s samples).
Proof.
  induction samples as [|x samples IH]; intros s Hs; [exact Hs|].
  cbn [foldl]. apply IH. now apply reach_interrupt.
Qed.

End Run.

(** The state [runner_5_running] belongs to a run of the program. *)
Lemma runner_5_running_reachable (uninit_time : time_type) :
  reachable zero_memory (runner zero_node) uninit_time (Ret tt) runner_5_running.
Proof.
  apply (reach_input _ _ _ _
           (foldl ISR_TIMER1_COMPA race_started (replicate 10 0)) _ 1%nat 16 5 0).
  - apply reachable_interrupts.
    apply (reach_input _ _ _ _ (main_init zero_memory) _ 1%nat 1 0 0).
    + apply reach_main.
    + vm_compute. reflexivity.
  - vm_compute. reflexivity.
Qed.

(** The race has started; runner 5 starts. *)
Lemma main_iteration_shows_started_runner_witness :
  let s := foldl ISR_TIMER1_COMPA race_started (replicate 10 0) in
  exists s',
    main_iteration zero_memory (runner zero_node) (mk_time 0 0 0) (Ret tt)
      1 s 16 5 0 = Ret s' /\
    currentRunner s' = start_stamp s 5 0 /\
    running (currentRunner s') = 1 /\
    PORTA s' = u8 5.
Proof.
  intros s.
  apply (main_iteration_shows_started_runner zero_memory (runner zero_node)
           (mk_time 0 0 0) (Ret tt) 1 s 16 5 0 (runner zero_node)).
  - vm_compute. discriminate.
  - reflexivity.
  - left. split; [reflexivity | vm_compute; discriminate].
  - concrete_list.
  - lia.
Defined.

(** The state [runner_5_running]. *)
Lemma run_keeps_one_node_witness :
  run_invariant zero_memory runner_5_running.
Proof.
  apply (run_keeps_one_node zero_memory (runner zero_node) (mk_time 0 0 0) (Ret tt)
           runner_5_running).
  - reflexivity.
  - apply runner_5_running_reachable.
Defined.

(** The state [runner_5_running], entered with 1:02.03 in the local
    variable. *)
Lemma run_never_averages_witness :
  averageLapTime (mk_time 1 2 3) 2 runner_5_running = Ret (mk_time 1 2 3).
Proof.
  apply (run_never_averages zero_memory (runner zero_node) (mk_time 1 2 3) (Ret tt)
           2 runner_5_running).
  - reflexivity.
  - apply runner_5_running_reachable.
  - lia.
Defined.

(** ** What the average depends on *)




(** ** Freeing the list *)

Lemma is_list_functional (h : gmap loc runner_node) (l1 : list runner_type) :
  forall (p : ptr) (l2 : list runner_type),
    is_list h p l1 -> is_list h p l2 -> l1 = l2.
Proof.
  induction l1 as [|r1 l1 IH]; intros p [|r2 l2] H1 H2; simpl in *.
  - reflexivity.
  - destruct H2 as (a & nd & Hp & _). congruence.
  - destruct H1 as (a & nd & Hp & _). congruence.
  - destruct H1 as (a1 & nd1 & Hp1 & Ha1 & Hr1 & Hl1).
    destruct H2 as (a2 & nd2 & Hp2 & Ha2 & Hr2 & Hl2).
    assert (a1 = a2) by congruence. subst a2.
    assert (nd1 = nd2) by congruence. subst nd2.
    f_equal; [congruence | now apply (IH (next nd1))].
Qed.

(** A list that is shorter than the list from [a] does not pass through
    [a], and is still there when [a] is freed. *)
Lemma is_list_delete_other (h : gmap loc runner_node) (a : loc)
    (l : list runner_type) :
  forall q : ptr,
    is_list h q l ->
    (forall full, is_list h (Some a) full -> (length l < length full)%nat) ->
    is_list (delete a h) q l.
Proof.
  induction l as [|r l IH]; intros q Hl Hshort; [exact Hl|].
  destruct Hl as (b & nd & -> & Hb & Hr & Hl).
  assert (Hne : a <> b).
  { intros ->. specialize (Hshort (r :: l)). simpl in Hshort.
    assert (is_list h (Some b) (r :: l)) as H by (exists b, nd; auto).
    specialize (Hshort H). lia. }
  exists b, nd. split; [reflexivity|]. split; [now rewrite lookup_delete_ne|].
  split; [exact Hr|]. apply IH; [exact Hl|].
  intros full Hfull. specialize (Hshort full Hfull). simpl in Hshort. lia.
Qed.

Lemma freeRunnerList_on_list (l : list runner_type) :
  forall (fuel : nat) (h : gmap loc runner_node) (p : ptr),
    is_list h p l -> (length l < fuel)%nat ->
    exists h',
      freeRunnerList fuel h p = Ret h' /\
      h' ⊆ h /\
      size h = (size h' + length l)%nat /\
      (forall a, p = Some a -> h' !! a = None).
Proof.
  induction l as [|r l IH]; intros fuel h p Hl Hf; destruct fuel as [|fuel];
    simpl in Hf; try lia.
  - simpl in Hl. subst p. exists h. repeat split; auto. intros a Ha. discriminate.
  - pose proof Hl as Hfull.
    destruct Hl as (a & nd & -> & Ha & Hr & Hl).
    assert (Hl' : is_list (delete a h) (next nd) l).
    { apply is_list_delete_other; [exact Hl|].
      intros full Hf'. rewrite <- (is_list_functional h _ _ _ Hfull Hf'). simpl. lia. }
    destruct (IH fuel (delete a h) (next nd) Hl' ltac:(lia)) as (h' & Hfree & Hsub & Hsize & _).
    exists h'. cbn [freeRunnerList load]. rewrite Ha. cbn [mbind outcome_bind].
    unfold free. rewrite Ha. cbn [mbind outcome_bind].
    split; [exact Hfree|]. split; [|split].
    + etransitivity; [exact Hsub | apply delete_subseteq].
    + assert (Hd : size h = S (size (delete a h))).
      { rewrite <- (insert_delete_id h a nd Ha) at 1.
        apply map_size_insert_None, lookup_delete_eq. }
      cbn [length]. lia.
    + intros a' [= <-]. eapply lookup_weaken_None; [|exact Hsub].
      apply lookup_delete_eq.
Qed.



(** ** The sorting passes *)

Lemma array_get_Some (arr : list runner_type) (i : Z) (r : runner_type) :
  0 <= i -> arr !! Z.to_nat i = Some r -> array_get arr i = Ret r.
Proof.
  intros Hi Hr. unfold array_get.
  destruct (Z.leb_spec 0 i); [|lia]. now rewrite Hr.
Qed.

Lemma array_set_Some (arr : list runner_type) (i : Z) (r0 r : runner_type) :
  0 <= i -> arr !! Z.to_nat i = Some r0 ->
  array_set arr i r = Ret (<[Z.to_nat i := r]> arr).
Proof.
  intros Hi Hr. unfold array_set. now rewrite (array_get_Some arr i r0).
Qed.

(** One round of the inner loop, on indices inside the array: the
    neighbours at [j - 1] and [j] are put in the order of their keys. *)
Lemma sortedByTime_inner_round (fuel : nat) (arr : list runner_type) (i j : Z)
    (r1 r2 : runner_type) :
  1 <= j <= i ->
  arr !! Z.to_nat j = Some r1 ->
  arr !! (Z.to_nat j - 1)%nat = Some r2 ->
  sortedByTime_inner (S fuel) arr i j
  = sortedByTime_inner fuel
      (if getTimeInSec r2 >? getTimeInSec r1
       then <[Z.to_nat j := r2]> (<[(Z.to_nat j - 1)%nat := r1]> arr)
       else arr)
      i (u8 (j + 1)).
Proof.
  intros Hj H1 H2. cbn [sortedByTime_inner].
  destruct (Z.leb_spec j i); [|lia].
  assert (Hj1 : Z.to_nat (j - 1) = (Z.to_nat j - 1)%nat) by lia.
  rewrite (array_get_Some arr j r1) by (try lia; exact H1).
  rewrite (array_get_Some arr (j - 1) r2) by (try lia; now rewrite Hj1).
  cbn [mbind outcome_bind].
  destruct (getTimeInSec r2 >? getTimeInSec r1); [|reflexivity].
  rewrite (array_set_Some arr (j - 1) r2 r1) by (try lia; now rewrite Hj1).
  cbn [mbind outcome_bind]. rewrite Hj1.
  rewrite (array_set_Some _ j r1 r2); [reflexivity | lia |].
  rewrite list_lookup_insert_ne by lia. exact H1.
Qed.

(** The inner loop from [j] on, when the largest key of the entries before
    [j] stands at [j - 1]. *)
Lemma sortedByTime_inner_from (i : Z) (d : nat) :
  forall (arr : list runner_type) (j : Z) (fuel : nat),
    1 <= j -> j + Z.of_nat d = i + 1 ->
    i < Z.of_nat (length arr) -> (length arr <= 255)%nat -> (d < fuel)%nat ->
    (forall k x y, (k < Z.to_nat j)%nat -> arr !! k = Some x ->
                   arr !! (Z.to_nat j - 1)%nat = Some y ->
                   getTimeInSec x <= getTimeInSec y) ->
    exists arr',
      sortedByTime_inner fuel arr i j = Ret arr' /\
      arr' ≡ₚ arr /\
      (forall k x y, (k <= Z.to_nat i)%nat -> arr' !! k = Some x ->
                     arr' !! Z.to_nat i = Some y ->
                     getTimeInSec x <= getTimeInSec y) /\
      (forall k, (Z.to_nat i < k)%nat -> arr' !! k = arr !! k).
Proof.
  induction d as [|d IH]; intros arr j fuel Hj Hd Hi Hlen Hf Hmax;
    destruct fuel as [|fuel]; try lia.
  - exists arr. cbn [sortedByTime_inner]. destruct (Z.leb_spec j i); [lia|].
    split; [reflexivity|]. split; [reflexivity|]. split; [|reflexivity].
    intros k x y Hk Hx Hy. apply (Hmax k x y); [lia | exact Hx |].
    replace (Z.to_nat j - 1)%nat with (Z.to_nat i) by lia. exact Hy.
  - assert (Hjn : (Z.to_nat j < length arr)%nat) by lia.
    destruct (lookup_lt_is_Some_2 arr (Z.to_nat j) Hjn) as [r1 H1].
    destruct (lookup_lt_is_Some_2 arr (Z.to_nat j - 1) ltac:(lia)) as [r2 H2].
    rewrite (sortedByTime_inner_round fuel arr i j r1 r2) by (try lia; assumption).
    rewrite (u8_id (j + 1)) by (unfold is_u8; lia).
    set (arr1 := if getTimeInSec r2 >? getTimeInSec r1
                 then <[Z.to_nat j := r2]> (<[(Z.to_nat j - 1)%nat := r1]> arr)
                 else arr).
    assert (Hperm : arr1 ≡ₚ arr).
    { subst arr1. destruct (getTimeInSec r2 >? getTimeInSec r1); [|reflexivity].
      now apply Permutation_insert_swap. }
    assert (Hsame : forall k, (Z.to_nat j < k)%nat -> arr1 !! k = arr !! k).
    { intros k Hk. subst arr1.
      destruct (getTimeInSec r2 >? getTimeInSec r1); [|reflexivity].
      now rewrite !list_lookup_insert_ne by lia. }
    assert (Hmax1 : forall k x y, (k < Z.to_nat (j + 1))%nat -> arr1 !! k = Some x ->
                      arr1 !! (Z.to_nat (j + 1) - 1)%nat = Some y ->
                      getTimeInSec x <= getTimeInSec y).
    { replace (Z.to_nat (j + 1) - 1)%nat with (Z.to_nat j) by lia.
      intros k x y Hk Hx Hy. subst arr1.
      destruct (Z.gtb_spec (getTimeInSec r2) (getTimeInSec r1)) as [Hgt|Hle].
      - rewrite list_lookup_insert_eq in Hy by (rewrite length_insert; lia).
        injection Hy as <-.
        destruct (decide (k = Z.to_nat j)) as [->|Hne1].
        { rewrite list_lookup_insert_eq in Hx by (rewrite length_insert; lia).
          injection Hx as <-. lia. }
        rewrite list_lookup_insert_ne in Hx by lia.
        destruct (decide (k = (Z.to_nat j - 1)%nat)) as [->|Hne2].
        { rewrite list_lookup_insert_eq in Hx by lia. injection Hx as <-. lia. }
        rewrite list_lookup_insert_ne in Hx by lia.
        apply (Hmax k x r2); [lia | exact Hx | exact H2].
      - rewrite H1 in Hy. injection Hy as <-.
        destruct (decide (k = Z.to_nat j)) as [->|Hne1].
        { rewrite H1 in Hx. injection Hx as <-. lia. }
        pose proof (Hmax k x r2 ltac:(lia) Hx H2). lia. }
    destruct (IH arr1 (j + 1) fuel ltac:(lia) ltac:(lia)
                ltac:(rewrite (Permutation_length Hperm); lia)
                ltac:(rewrite (Permutation_length Hperm); lia) ltac:(lia) Hmax1)
      as (arr' & Hrun & Hp' & Hmax' & Hsame').
    exists arr'. split; [exact Hrun|]. split; [now rewrite Hp'|]. split; [exact Hmax'|].
    intros k Hk. rewrite Hsame' by exact Hk. apply Hsame. lia.
Qed.

Lemma sortedByTime_inner_pass (fuel : nat) (arr : list runner_type) (i : Z) :
  0 <= i < Z.of_nat (length arr) -> (length arr <= 255)%nat ->
  (Z.to_nat i < fuel)%nat ->
  exists arr',
    sortedByTime_inner fuel arr i 1 = Ret arr' /\
    arr' ≡ₚ arr /\
    (forall k x y, (k <= Z.to_nat i)%nat -> arr' !! k = Some x ->
                   arr' !! Z.to_nat i = Some y ->
                   getTimeInSec x <= getTimeInSec y) /\
    (forall k, (Z.to_nat i < k)%nat -> arr' !! k = arr !! k).
Proof.
  intros Hi Hlen Hf.
  apply (sortedByTime_inner_from i (Z.to_nat i) arr 1 fuel); try lia.
  intros k x y Hk Hx Hy. assert (k = 0%nat) by lia. subst k.
  change (Z.to_nat 1 - 1)%nat with 0%nat in Hy. rewrite Hx in Hy. injection Hy as <-. lia.
Qed.

(** X15. One run of the inner loop of the sort, for an index [i] inside an
    array of at most 255 runners: the loop returns, the array holds the
    runners it held, a runner with the largest key among the entries 0 to
    [i] stands at [i], and the entries after [i] are as they were. *)
Theorem sortedByTime_inner_bubbles_largest (fuel : nat) (arr : list runner_type)
    (i : Z) :
  0 <= i < Z.of_nat (length arr) -> (length arr <= 255)%nat ->
  (Z.to_nat i < fuel)%nat ->
  exists arr',
    sortedByTime_inner fuel arr i 1 = Ret arr' /\
    arr' ≡ₚ arr /\
    (forall k x y, (k <= Z.to_nat i)%nat -> arr' !! k = Some x ->
                   arr' !! Z.to_nat i = Some y ->
                   getTimeInSec x <= getTimeInSec y) /\
    (forall k, (Z.to_nat i < k)%nat -> arr' !! k = arr !! k).
Proof. apply sortedByTime_inner_pass. Qed.

(** Laps 0:50, 0:20 and 0:35 and a fourth runner outside the pass: the lap
    of 0:50 moves to index 2. *)
Lemma sortedByTime_inner_bubbles_largest_witness :
  let arr := [mk_runner 1 0 (mk_time 0 50 0); mk_runner 2 0 (mk_time 0 20 0);
              mk_runner 3 0 (mk_time 0 35 0); mk_runner 4 0 (mk_time 0 1 0)] in
  (exists arr',
    sortedByTime_inner 3 arr 2 1 = Ret arr' /\
    arr' ≡ₚ arr /\
    (forall k x y, (k <= Z.to_nat 2)%nat -> arr' !! k = Some x ->
                   arr' !! Z.to_nat 2 = Some y ->
                   getTimeInSec x <= getTimeInSec y) /\
    (forall k, (Z.to_nat 2 < k)%nat -> arr' !! k = arr !! k)) /\
  sortedByTime_inner 3 arr 2 1
  = Ret [mk_runner 2 0 (mk_time 0 20 0); mk_runner 3 0 (mk_time 0 35 0);
         mk_runner 1 0 (mk_time 0 50 0); mk_runner 4 0 (mk_time 0 1 0)].
Proof.
  intros arr. split; [|reflexivity].
  apply (sortedByTime_inner_bubbles_largest 3 arr 2); simpl; lia.
Defined.

(** ** Where the sort ends *)

(** With 255 as bound, the inner loop leaves the array. *)
Lemma sortedByTime_inner_overrun (d : nat) :
  forall (arr : list runner_type) (j : Z) (fuel : nat),
    1 <= j -> j + Z.of_nat d = Z.of_nat (length arr) -> (length arr <= 255)%nat ->
    (d < fuel)%nat ->
    sortedByTime_inner fuel arr 255 j = Undefined.
Proof.
  induction d as [|d IH]; intros arr j fuel Hj Hd Hlen Hf;
    destruct fuel as [|fuel]; try lia.
  - cbn [sortedByTime_inner]. destruct (Z.leb_spec j 255); [|lia].
    unfold array_get. destruct (Z.leb_spec 0 j); [|lia].
    rewrite lookup_ge_None_2 by lia. reflexivity.
  - destruct (lookup_lt_is_Some_2 arr (Z.to_nat j) ltac:(lia)) as [r1 H1].
    destruct (lookup_lt_is_Some_2 arr (Z.to_nat j - 1) ltac:(lia)) as [r2 H2].
    rewrite (sortedByTime_inner_round fuel arr 255 j r1 r2) by (try lia; assumption).
    rewrite (u8_id (j + 1)) by (unfold is_u8; lia).
    apply IH; try lia;
      destruct (getTimeInSec r2 >? getTimeInSec r1); rewrite ?length_insert; lia.
Qed.

(** From an index inside the array, the outer loop runs its passes down to
    index 0, wraps to 255 and leaves the array. *)
Lemma sortedByTime_outer_overrun (k : nat) :
  forall (arr : list runner_type) (fuel : nat),
    (k < length arr)%nat -> (length arr <= 255)%nat ->
    (k + length arr + 2 <= fuel)%nat ->
    sortedByTime_outer fuel arr (Z.of_nat k) = Undefined.
Proof.
  induction k as [|k IH]; intros arr fuel Hk Hlen Hf;
    destruct fuel as [|fuel]; try lia; cbn [sortedByTime_outer].
  - change (Z.of_nat 0 >=? 0) with true. cbv iota.
    destruct (sortedByTime_inner_pass fuel arr 0 ltac:(lia) Hlen ltac:(simpl; lia))
      as (arr' & Hrun & Hp & _).
    change (Z.of_nat 0) with 0. rewrite Hrun. cbn [mbind outcome_bind].
    change (u8 (0 - 1)) with 255.
    destruct fuel as [|fuel]; [lia|]. cbn [sortedByTime_outer].
    change (255 >=? 0) with true. cbv iota.
    rewrite (sortedByTime_inner_overrun (length arr' - 1) arr' 1 fuel);
      rewrite ?(Permutation_length Hp); try lia. reflexivity.
  - destruct (Z.geb_spec (Z.of_nat (S k)) 0) as [_|]; [|lia].
    destruct (sortedByTime_inner_pass fuel arr (Z.of_nat (S k)) ltac:(lia) Hlen ltac:(lia))
      as (arr' & Hrun & Hp & _).
    rewrite Hrun. cbn [mbind outcome_bind].
    rewrite (u8_id (Z.of_nat (S k) - 1)) by (unfold is_u8; lia).
    replace (Z.of_nat (S k) - 1) with (Z.of_nat k) by lia.
    apply IH; rewrite ?(Permutation_length Hp); lia.
Qed.

Lemma sortedByTime_count_on_list (h : gmap loc runner_node) (l : list runner_type) :
  forall (fuel : nat) (p : ptr) (listSize : Z),
    is_list h p l -> (length l < fuel)%nat ->
    0 <= listSize -> listSize + Z.of_nat (length l) <= 255 ->
    sortedByTime_count fuel h p listSize = Ret (listSize + Z.of_nat (length l)).
Proof.
  induction l as [|r l IH]; intros fuel p n Hl Hf Hn Hsum; destruct fuel as [|fuel];
    simpl in Hf; try lia.
  - simpl in Hl. subst p. cbn. f_equal. lia.
  - destruct Hl as (a & nd & -> & Ha & _ & Hl).
    cbn [sortedByTime_count load]. rewrite Ha. cbn [mbind outcome_bind].
    cbn [length] in Hsum.
    rewrite (u8_id (n + 1)) by (unfold is_u8; lia).
    rewrite (IH fuel (next nd) (n + 1) Hl) by lia. f_equal. cbn [length]. lia.
Qed.

Lemma sortedByTime_copy_on_list (h : gmap loc runner_node) (l : list runner_type) :
  forall (done rest : list runner_type) (fuel : nat) (p : ptr),
    is_list h p l -> length rest = length l ->
    (length done + length l <= 255)%nat -> (length l < fuel)%nat ->
    sortedByTime_copy fuel h (done ++ rest) p (Z.of_nat (length done))
      (Z.of_nat (length done + length l))
    = Ret (done ++ l).
Proof.
  induction l as [|x l IH]; intros done rest fuel p Hl Hrest Hlen Hf;
    destruct fuel as [|fuel]; simpl in Hf; try lia.
  - destruct rest; [|discriminate]. cbn [sortedByTime_copy length].
    rewrite Nat.add_0_r, Z.ltb_irrefl. reflexivity.
  - destruct rest as [|r0 rest]; [discriminate|]. injection Hrest as Hrest.
    destruct Hl as (a & nd & -> & Ha & <- & Hl).
    cbn [sortedByTime_copy].
    destruct (Z.ltb_spec (Z.of_nat (length done))
                (Z.of_nat (length done + length (runner nd :: l))));
      [|simpl in *; lia].
    cbn [load]. rewrite Ha. cbn [mbind outcome_bind].
    rewrite (array_set_Some _ _ r0) by
      (try lia; rewrite Nat2Z.id, lookup_app_r, Nat.sub_diag by lia; reflexivity).
    cbn [mbind outcome_bind]. rewrite Nat2Z.id.
    rewrite insert_app_r_alt, Nat.sub_diag by lia. cbn [list_insert insert].
    cbn [length] in Hlen.
    rewrite (u8_id (Z.of_nat (length done) + 1)) by (unfold is_u8; lia).
    replace (Z.of_nat (length done) + 1) with (Z.of_nat (length (done ++ [runner nd])))
      by (rewrite length_app; simpl; lia).
    replace (length done + length (runner nd :: l))%nat
      with (length (done ++ [runner nd]) + length l)%nat
      by (rewrite length_app; simpl; lia).
    replace (done ++ runner nd :: rest) with ((done ++ [runner nd]) ++ rest)
      by (now rewrite <- app_assoc).
    rewrite (IH (done ++ [runner nd]) rest fuel (next nd) Hl Hrest)
      by (rewrite ?length_app; simpl; lia).
    now rewrite <- app_assoc.
Qed.

Section Overrun.

Variable uninit_node : loc -> runner_node.
Variable uninit_runner : runner_type.
Variable uninit_time : time_type.
Variable free_sortingArray : outcome unit.

Lemma sortedByTime_on_list (fuel : nat) (s : state) (head : ptr)
    (l : list runner_type) :
  is_list (heap s) head l -> (length l <= 255)%nat ->
  (2 * length l + 2 <= fuel)%nat ->
  sortedByTime uninit_node uninit_runner free_sortingArray fuel s head = Undefined.
Proof.
  intros Hl Hlen Hf. unfold sortedByTime.
  rewrite (sortedByTime_count_on_list (heap s) l fuel head 0 Hl) by lia.
  cbn [mbind outcome_bind]. rewrite Z.add_0_l, Nat2Z.id.
  pose proof (sortedByTime_copy_on_list (heap s) l [] (replicate (length l) uninit_runner)
                fuel head Hl ltac:(apply length_replicate) ltac:(simpl; lia) ltac:(lia))
    as Hcopy.
  cbn [app length Nat.add] in Hcopy. change (Z.of_nat 0) with 0 in Hcopy.
  rewrite Hcopy. cbn [mbind outcome_bind].
  destruct (freeRunnerList_on_list l fuel (heap s) head Hl ltac:(lia))
    as (h' & Hfree & _).
  rewrite Hfree. cbn [mbind outcome_bind].
  destruct l as [|x l].
  - change (u8 (Z.of_nat (length (@nil runner_type)) - 1)) with 255.
    destruct fuel as [|[|fuel]]; try (simpl in Hf; lia). reflexivity.
  - rewrite (u8_id (Z.of_nat (length (x :: l)) - 1))
      by (unfold is_u8; cbn [length] in *; lia).
    replace (Z.of_nat (length (x :: l)) - 1) with (Z.of_nat (length l))
      by (cbn [length]; lia).
    rewrite (sortedByTime_outer_overrun (length l) (x :: l) fuel)
      by (cbn [length] in *; lia).
    reflexivity.
Qed.

(** X16. On every well-formed list of at most 255 runners, and with a loop
    budget of twice its length plus two, [sortedByTime] counts and copies
    the list, frees it, runs its sorting passes and then, the counter of
    the outer loop having wrapped from 0 to 255, reads the array outside its
    bounds: the call ends in undefined behaviour. *)
Theorem sortedByTime_overruns_the_array (fuel : nat) (s : state) (head : ptr)
    (l : list runner_type) :
  is_list (heap s) head l -> (length l <= 255)%nat ->
  (2 * length l + 2 <= fuel)%nat ->
  sortedByTime uninit_node uninit_runner free_sortingArray fuel s head = Undefined.
Proof. apply sortedByTime_on_list. Qed.

(** The start/stop signal while the clock counts as running, in a run. *)
Lemma inputController_stop_in_run (fuel : nat) (s : state) (PIND PINE TCNT1 : Z) :
  next (uninit_node (fresh (dom (∅ : gmap loc runner_node)))) = None ->
  reachable uninit_node uninit_runner uninit_time free_sortingArray s ->
  Z.land PIND 1 <> 0 -> clockRunning s <> 0 -> (4 <= fuel)%nat ->
  inputController uninit_node uninit_runner uninit_time free_sortingArray
    fuel s PIND PINE TCNT1 = Undefined.
Proof.
  intros Hnull Hreach H0 Hc Hf.
  destruct (reachable_run_invariant uninit_node uninit_runner uninit_time
              free_sortingArray s Hnull Hreach) as ((x & Hx & _) & _).
  unfold inputController.
  destruct (Z.eqb_spec (Z.land PIND 1) 0) as [|_]; [contradiction|].
  destruct (Z.eqb_spec (clockRunning s) 0) as [|_]; [contradiction|].
  cbn [negb].
  rewrite (averageLapTime_value uninit_time fuel _ [x]) by (try exact Hx; simpl; lia).
  cbn [mbind outcome_bind].
  rewrite (sortedByTime_on_list fuel _ _ [x]) by (try exact Hx; simpl; lia).
  reflexivity.
Qed.

(** X17. In every state of a run of the program (one that starts with
    [NULL] in the [next] field of the node [main] obtains) in which the
    clock counts as running, a call of the controller with the start/stop
    signal set ends in undefined behaviour, for every loop budget of at
    least 4: the end of a race overruns the array of [sortedByTime]. *)
Theorem stop_overruns_the_array (fuel : nat) (s : state) (PIND PINE TCNT1 : Z) :
  next (uninit_node (fresh (dom (∅ : gmap loc runner_node)))) = None ->
  reachable uninit_node uninit_runner uninit_time free_sortingArray s ->
  Z.land PIND 1 <> 0 -> clockRunning s <> 0 -> (4 <= fuel)%nat ->
  inputController uninit_node uninit_runner uninit_time free_sortingArray
    fuel s PIND PINE TCNT1 = Undefined.
Proof. apply inputController_stop_in_run. Qed.

(** X19. The start/stop signal is read as a level. In a state of such a run
    in which the clock does not count as running, a call of the controller
    with the start/stop signal set and the runner signal clear returns with
    the clock counted as running; a second call that still finds the signal
    set takes it as the end of the race and ends in undefined behaviour. *)
Theorem held_start_signal_ends_the_race (fuel : nat) (s : state)
    (PIND PINE TCNT1 PIND' PINE' TCNT1' : Z) :
  next (uninit_node (fresh (dom (∅ : gmap loc runner_node)))) = None ->
  reachable uninit_node uninit_runner uninit_time free_sortingArray s ->
  clockRunning s = 0 ->
  Z.land PIND 1 <> 0 -> Z.land PIND (Z.shiftl 1 4) = 0 ->
  Z.land PIND' 1 <> 0 -> (4 <= fuel)%nat ->
  exists s1,
    inputController uninit_node uninit_runner uninit_time free_sortingArray
      fuel s PIND PINE TCNT1 = Ret s1 /\
    s1 = set_clockRunning 1 (startTimer s) /\
    inputController uninit_node uninit_runner uninit_time free_sortingArray
      fuel s1 PIND' PINE' TCNT1' = Undefined.
Proof.
  intros Hnull Hreach Hc H0 H4 H0' Hf.
  assert (Hfirst : inputController uninit_node uninit_runner uninit_time
                     free_sortingArray fuel s PIND PINE TCNT1
                   = Ret (set_clockRunning 1 (startTimer s))).
  { unfold inputController, inputController_runner.
    destruct (Z.eqb_spec (Z.land PIND 1) 0) as [|_]; [contradiction|].
    rewrite Hc, H4. reflexivity. }
  exists (set_clockRunning 1 (startTimer s)).
  split; [exact Hfirst|]. split; [reflexivity|].
  apply inputController_stop_in_run; try assumption.
  - eapply reach_input; [exact Hreach | exact Hfirst].
  - discriminate.
Qed.

End Overrun.

(** The registry of [runner_5_running]. *)
Lemma sortedByTime_overruns_the_array_witness :
  sortedByTime zero_memory (runner zero_node) (Ret tt) 4 runner_5_running
    (runnerListHead runner_5_running) = Undefined.
Proof.
  apply (sortedByTime_overruns_the_array zero_memory (runner zero_node) (Ret tt) 4
           runner_5_running (runnerListHead runner_5_running) [runner_5]).
  - concrete_list.
  - simpl. lia.
  - simpl. lia.
Defined.

(** The state [runner_5_running] and the start/stop signal. *)
Lemma stop_overruns_the_array_witness :
  inputController zero_memory (runner zero_node) (mk_time 0 0 0) (Ret tt)
    4 runner_5_running 1 0 0 = Undefined.
Proof.
  apply (stop_overruns_the_array zero_memory (runner zero_node) (mk_time 0 0 0) (Ret tt)
           4 runner_5_running 1 0 0).
  - reflexivity.
  - apply runner_5_running_reachable.
  - vm_compute. discriminate.
  - vm_compute. discriminate.
  - lia.
Defined.

(** ** The counter of finished runners *)

Lemma heap_of_lookup_lt (l : list runner_type) :
  forall a b : loc, (b < a)%positive -> heap_of a l !! b = None.
Proof.
  induction l as [|r l IH]; intros a b Hb; cbn [heap_of]; [apply lookup_empty|].
  rewrite lookup_insert_ne by lia. apply IH. lia.
Qed.

Lemma is_list_insert_fresh (h : gmap loc runner_node) (a : loc) (n : runner_node)
    (l : list runner_type) :
  forall p : ptr, h !! a = None -> is_list h p l -> is_list (<[a := n]> h) p l.
Proof.
  induction l as [|r l IH]; intros p Ha Hl; [exact Hl|].
  destruct Hl as (b & nd & -> & Hb & Hr & Hl).
  exists b, nd. split; [reflexivity|]. split; [|split; [exact Hr | now apply IH]].
  rewrite lookup_insert_ne by congruence. exact Hb.
Qed.

(** The heap of [heap_of] holds the list it is built from. *)
Lemma is_list_heap_of (l : list runner_type) :
  forall a : loc,
    is_list (heap_of a l) (match l with [] => None | _ => Some a end) l.
Proof.
  induction l as [|r l IH]; intros a; [reflexivity|].
  cbn [heap_of is_list]. eexists a, _. split; [reflexivity|].
  split; [apply lookup_insert_eq|]. split; [reflexivity|]. cbn [next].
  apply is_list_insert_fresh; [apply heap_of_lookup_lt; lia | apply IH].
Qed.

(** X18. The counter of finished runners in [averageLapTime] is a
    [uint8_t]: on a well-formed registry whose number of finished runners
    is 0 or 1 modulo 256, for instance 256 of them, the function takes the
    registry for one without a race and returns the uninitialised content
    of its local variable. *)
Theorem averageLapTime_counter_wraps (uninit_time : time_type) (fuel : nat)
    (s : state) (l : list runner_type) :
  is_list (heap s) (runnerListHead s) l -> (length l < fuel)%nat ->
  Z.of_nat (length (finishers l)) mod 256 <= 1 ->
  averageLapTime uninit_time fuel s = Ret uninit_time.
Proof.
  intros Hl Hf Hn. rewrite (averageLapTime_value _ _ _ l) by assumption.
  cbv zeta. unfold u8 at 1.
  destruct (Z.gtb_spec (Z.of_nat (length (finishers l)) mod 256) 1);
    [lia | reflexivity].
Qed.

(** 256 finished runners, each with a lap of 0:01. *)
Lemma averageLapTime_counter_wraps_witness :
  averageLapTime (mk_time 1 2 3) 257
    (registry_state (replicate 256 (mk_runner 1 0 (mk_time 0 1 0))))
  = Ret (mk_time 1 2 3).
Proof.
  apply (averageLapTime_counter_wraps (mk_time 1 2 3) 257
           (registry_state (replicate 256 (mk_runner 1 0 (mk_time 0 1 0))))
           (replicate 256 (mk_runner 1 0 (mk_time 0 1 0)))).
  - apply (is_list_heap_of (replicate 256 (mk_runner 1 0 (mk_time 0 1 0))) 1%positive).
  - rewrite length_replicate. lia.
  - vm_compute. discriminate.
Defined.

(** The initial state of [main], with the start/stop signal held over two
    calls. *)
Lemma held_start_signal_ends_the_race_witness :
  exists s1,
    inputController zero_memory (runner zero_node) (mk_time 0 0 0) (Ret tt)
      4 (main_init zero_memory) 1 0 0 = Ret s1 /\
    s1 = set_clockRunning 1 (startTimer (main_init zero_memory)) /\
    inputController zero_memory (runner zero_node) (mk_time 0 0 0) (Ret tt)
      4 s1 1 0 0 = Undefined.
Proof.
  apply (held_start_signal_ends_the_race zero_memory (runner zero_node)
           (mk_time 0 0 0) (Ret tt) 4 (main_init zero_memory) 1 0 0 1 0 0).
  - reflexivity.
  - apply reach_main.
  - reflexivity.
  - vm_compute. discriminate.
  - reflexivity.
  - vm_compute. discriminate.
  - lia.
Defined.
